(** * OneRoster mock server: data generator and query handlers

    A shallow embedding of [datastore.go] (the record types and
    [NewDataStore]) and of the HTTP handlers that scan the generated
    store, followed by the properties of the generated dataset and of
    the lookups.

    Conventions of the embedding:
    - a Go slice is a [list]; the program builds every slice by [append]
      from the nil slice or from a non-empty literal, so the empty list
      always stands for the nil slice;
    - a Go pointer field ([*GUIDRef]) is an [option];
    - a Go [int] is a [Z]; the only arithmetic is on loop counters that
      stay between 1 and 1000, far from the 64-bit bounds;
    - Rocq has one name space for record projections, so a field [F] of
      struct [S] is the projection [S_F] (the fields of [BaseModel] keep
      their names);
    - [uuid.New().String()] and [time.Now()] are calls into the
      environment: the generator is parameterised by the sequence of
      values these calls return. *)

From Stdlib Require Import ZArith Lia.
From stdpp Require Import base list strings pretty.
From stdpp Require Import gmap.

Local Open Scope string_scope.
Local Open Scope list_scope.
Local Open Scope Z_scope.

(** ** Go primitives used by the program *)

(** [time.Time], as the number of nanoseconds elapsed since the zero
    instant (January 1, year 1, 00:00:00 UTC): the zero value of the
    type is [0]. *)
Definition Time := Z.
Definition zeroTime : Time := 0.

(** [any] (the empty interface). Nothing but the nil interface is ever
    stored by the program. *)
Inductive any := nil_any.

(** [a % b] on [int]: truncated remainder, a run-time panic when [b] is
    zero. *)
Definition go_rem (a b : Z) : option Z :=
  if b =? 0 then None else Some (Z.rem a b).

(** [s[j]]: a run-time panic when [j] is out of range. *)
Definition index {A} (s : list A) (j : Z) : option A :=
  if j <? 0 then None else s !! Z.to_nat j.

(** [append(s, x)]. *)
Definition append {A} (s : list A) (x : A) : list A := s ++ [x].

(** [fmt.Sprintf] verbs: ["%d"], and ["%0wd"] (zero padding up to width
    [w], the sign counted in the width). *)
Definition fmt_d (i : Z) : string := pretty i.

Definition zero_pad (w : nat) (digits : string) : string :=
  String.concat "" (replicate (w - String.length digits) "0") +:+ digits.

Definition fmt_0d (w : nat) (i : Z) : string :=
  if i <? 0 then "-" +:+ zero_pad (w - 1) (pretty (- i))
  else zero_pad w (pretty i).

(** ** The data model ([datastore.go]) *)

Record BaseModel := {
  SourcedId : string;
  Status : string;
  DateLastModified : Time;
  Metadata : any
}.

Record GUIDRef := {
  GUIDRef_Href : string;
  GUIDRef_SourcedId : string;
  GUIDRef_Type : string
}.

Record Org := {
  Org_BaseModel : BaseModel;
  Org_Name : string;
  Org_Type : string;
  Org_Identifier : string;
  Org_Parent : option GUIDRef;
  Org_Children : list GUIDRef
}.

Record User := {
  User_BaseModel : BaseModel;
  User_Username : string;
  User_UserIds : list any;
  User_EnabledUser : bool;
  User_GivenName : string;
  User_FamilyName : string;
  User_Role : string;
  User_Identifier : string;
  User_Email : string;
  User_Orgs : list GUIDRef
}.

Record Course := {
  Course_BaseModel : BaseModel;
  Course_Title : string;
  Course_SchoolYear : option GUIDRef;
  Course_CourseCode : string;
  Course_Grades : list string;
  Course_Subjects : list string;
  Course_SubjectCodes : list string;
  Course_Resources : list GUIDRef
}.

Record Class := {
  Class_BaseModel : BaseModel;
  Class_Title : string;
  Class_ClassCode : string;
  Class_ClassType : string;
  Class_Location : string;
  Class_Grades : list string;
  Class_Subjects : list string;
  Class_Course : GUIDRef;
  Class_School : GUIDRef;
  Class_Terms : list GUIDRef;
  Class_SubjectCodes : list string;
  Class_Periods : list string;
  Class_Resources : list GUIDRef
}.

Record Enrollment := {
  Enrollment_BaseModel : BaseModel;
  Enrollment_User : GUIDRef;
  Enrollment_Class : GUIDRef;
  Enrollment_School : GUIDRef;
  Enrollment_Role : string;
  Enrollment_Primary : bool;
  Enrollment_BeginDate : string;
  Enrollment_EndDate : string
}.

Record AcademicSession := {
  AcademicSession_BaseModel : BaseModel;
  AcademicSession_Title : string;
  AcademicSession_StartDate : string;
  AcademicSession_EndDate : string;
  AcademicSession_Type : string;
  AcademicSession_Parent : option GUIDRef;
  AcademicSession_Children : list GUIDRef;
  AcademicSession_SchoolYear : string
}.

Record Category := {
  Category_BaseModel : BaseModel;
  Category_Title : string;
  Category_Weight : Z
}.

(** Struct embedding: the fields of the embedded [BaseModel] are
    promoted, so [x.SourcedId] reads [x.BaseModel.SourcedId] for every
    record type. *)
Class Embeds (A : Type) := base : A -> BaseModel.

#[global] Instance Org_embeds : Embeds Org := Org_BaseModel.
#[global] Instance User_embeds : Embeds User := User_BaseModel.
#[global] Instance Course_embeds : Embeds Course := Course_BaseModel.
#[global] Instance Class_embeds : Embeds Class := Class_BaseModel.
#[global] Instance Enrollment_embeds : Embeds Enrollment :=
  Enrollment_BaseModel.
#[global] Instance AcademicSession_embeds : Embeds AcademicSession :=
  AcademicSession_BaseModel.
#[global] Instance Category_embeds : Embeds Category := Category_BaseModel.

Definition sourcedId {A} `{Embeds A} (x : A) : string := SourcedId (base x).
Definition status {A} `{Embeds A} (x : A) : string := Status (base x).
Definition dateLastModified {A} `{Embeds A} (x : A) : Time :=
  DateLastModified (base x).

Record DataStore := {
  Orgs : list Org;
  Users : list User;
  Courses : list Course;
  Classes : list Class;
  Enrollments : list Enrollment;
  AcademicSessions : list AcademicSession;
  Categories : list Category
}.

(** [&DataStore{}] *)
Definition empty_DataStore : DataStore :=
  {| Orgs := []; Users := []; Courses := []; Classes := [];
     Enrollments := []; AcademicSessions := []; Categories := [] |}.

(** Assignments [ds.F = v]. *)
Definition set_Orgs (v : list Org) (d : DataStore) : DataStore :=
  {| Orgs := v; Users := Users d; Courses := Courses d; Classes := Classes d;
     Enrollments := Enrollments d; AcademicSessions := AcademicSessions d;
     Categories := Categories d |}.
Definition set_Users (v : list User) (d : DataStore) : DataStore :=
  {| Orgs := Orgs d; Users := v; Courses := Courses d; Classes := Classes d;
     Enrollments := Enrollments d; AcademicSessions := AcademicSessions d;
     Categories := Categories d |}.
Definition set_Courses (v : list Course) (d : DataStore) : DataStore :=
  {| Orgs := Orgs d; Users := Users d; Courses := v; Classes := Classes d;
     Enrollments := Enrollments d; AcademicSessions := AcademicSessions d;
     Categories := Categories d |}.
Definition set_Classes (v : list Class) (d : DataStore) : DataStore :=
  {| Orgs := Orgs d; Users := Users d; Courses := Courses d; Classes := v;
     Enrollments := Enrollments d; AcademicSessions := AcademicSessions d;
     Categories := Categories d |}.
Definition set_AcademicSessions (v : list AcademicSession) (d : DataStore)
  : DataStore :=
  {| Orgs := Orgs d; Users := Users d; Courses := Courses d;
     Classes := Classes d; Enrollments := Enrollments d;
     AcademicSessions := v; Categories := Categories d |}.
Definition set_Categories (v : list Category) (d : DataStore) : DataStore :=
  {| Orgs := Orgs d; Users := Users d; Courses := Courses d;
     Classes := Classes d; Enrollments := Enrollments d;
     AcademicSessions := AcademicSessions d; Categories := v |}.

(** ** The generator monad

    [NewDataStore] mutates the store behind [ds], draws identifiers,
    reads the clock, and may panic on an index expression.  A
    computation is a function of the generator state; [None] is a
    panic. *)

Record GenState := {
  ds : DataStore;
  drawn : nat;   (* calls to uuid.New() made so far *)
  ticks : nat    (* calls to time.Now() made so far *)
}.

Definition Gen (A : Type) : Type := GenState -> option (A * GenState).

Definition ret {A} (x : A) : Gen A := fun s => Some (x, s).

Definition bind {A B} (m : Gen A) (k : A -> Gen B) : Gen B :=
  fun s => match m s with
           | Some (x, s') => k x s'
           | None => None
           end.

Definition panic {A} : Gen A := fun _ => None.

Definition lift_option {A} (o : option A) : Gen A :=
  match o with Some x => ret x | None => panic end.

Declare Scope gen_scope.
Delimit Scope gen_scope with gen.
Notation "x <- m ;; k" := (bind m (fun x => k))
  (at level 100, m at next level, right associativity) : gen_scope.
Notation "m ;; k" := (bind m (fun _ => k))
  (at level 100, right associativity) : gen_scope.

Definition get_ds : Gen DataStore := fun s => Some (ds s, s).

Definition modify_ds (f : DataStore -> DataStore) : Gen unit :=
  fun s => Some (tt, {| ds := f (ds s); drawn := drawn s; ticks := ticks s |}).

(** [for i := lo; i <= hi; i++ { body }], for a body that does not
    assign to [i]: the body runs [hi + 1 - lo] times (not at all when
    [hi < lo]). *)
Fixpoint iterate_from (n : nat) (i : Z) (body : Z -> Gen unit) : Gen unit :=
  match n with
  | O => ret tt
  | S n' => (body i ;; iterate_from n' (i + 1) body)%gen
  end.

Definition for_range (lo hi : Z) (body : Z -> Gen unit) : Gen unit :=
  iterate_from (Z.to_nat (hi + 1 - lo)) lo body.

(** ** [NewDataStore] *)

Section Generator.

(** [uuid_source n] is the string returned by the [n]-th call (from 0)
    to [uuid.New().String()], and [clock n] the instant returned by
    the [n]-th call to [time.Now()]. *)
Variable uuid_source : nat -> string.
Variable clock : nat -> Time.

Definition uuid_New_String : Gen string :=
  fun s => Some (uuid_source (drawn s),
                 {| ds := ds s; drawn := S (drawn s); ticks := ticks s |}).

Definition time_Now : Gen Time :=
  fun s => Some (clock (ticks s),
                 {| ds := ds s; drawn := drawn s; ticks := S (ticks s) |}).

(** [BaseModel{SourcedId: id, Status: "active", DateLastModified: now}] *)
Definition active_BaseModel (id : string) (now : Time) : BaseModel :=
  {| SourcedId := id; Status := "active"; DateLastModified := now;
     Metadata := nil_any |}.

(** [BaseModel{SourcedId: id}]: the other fields keep their zero
    values. *)
Definition bare_BaseModel (id : string) : BaseModel :=
  {| SourcedId := id; Status := ""; DateLastModified := zeroTime;
     Metadata := nil_any |}.

Definition mk_Org (schoolId : string) (now : Time) (i : Z) : Org :=
  {| Org_BaseModel := active_BaseModel schoolId now;
     Org_Name := "School #" +:+ fmt_d i;
     Org_Type := "school";
     Org_Identifier := "SCH" +:+ fmt_0d 3 i;
     Org_Parent := None;
     Org_Children := [] |}.

Definition mk_student (userId : string) (now : Time) (i : Z) (school : Org)
  : User :=
  {| User_BaseModel := active_BaseModel userId now;
     User_Username := "student" +:+ fmt_d i;
     User_UserIds := [];
     User_EnabledUser := true;
     User_GivenName := "Student";
     User_FamilyName := "User" +:+ fmt_d i;
     User_Role := "student";
     User_Identifier := "STU" +:+ fmt_0d 4 i;
     User_Email := "student" +:+ fmt_d i +:+ "@example.com";
     User_Orgs := [ {| GUIDRef_Href := "/orgs/" +:+ sourcedId school;
                       GUIDRef_SourcedId := sourcedId school;
                       GUIDRef_Type := "org" |} ] |}.

Definition mk_teacher (userId : string) (now : Time) (i : Z) (school : Org)
  : User :=
  {| User_BaseModel := active_BaseModel userId now;
     User_Username := "teacher" +:+ fmt_d i;
     User_UserIds := [];
     User_EnabledUser := true;
     User_GivenName := "Teacher";
     User_FamilyName := "User" +:+ fmt_d i;
     User_Role := "teacher";
     User_Identifier := "TCH" +:+ fmt_0d 4 i;
     User_Email := "teacher" +:+ fmt_d i +:+ "@example.com";
     User_Orgs := [ {| GUIDRef_Href := "/orgs/" +:+ sourcedId school;
                       GUIDRef_SourcedId := sourcedId school;
                       GUIDRef_Type := "org" |} ] |}.

Definition mk_AcademicSession (termId : string) (now : Time) (i : Z)
  : AcademicSession :=
  {| AcademicSession_BaseModel := active_BaseModel termId now;
     AcademicSession_Title := "Fall Semester 202" +:+ fmt_d (i + 4);
     AcademicSession_StartDate := "202" +:+ fmt_d (i + 4) +:+ "-09-01";
     AcademicSession_EndDate := "202" +:+ fmt_d (i + 4) +:+ "-12-20";
     AcademicSession_Type := "term";
     AcademicSession_Parent := None;
     AcademicSession_Children := [];
     AcademicSession_SchoolYear := "202" +:+ fmt_d (i + 4) |}.

Definition mk_Course (courseId : string) (now : Time) (i : Z) : Course :=
  {| Course_BaseModel := active_BaseModel courseId now;
     Course_Title := "Course " +:+ fmt_d i;
     Course_SchoolYear := None;
     Course_CourseCode := "CRS" +:+ fmt_0d 3 i;
     Course_Grades := [];
     Course_Subjects := ["General"];
     Course_SubjectCodes := [];
     Course_Resources := [] |}.

Definition mk_Class (classId : string) (now : Time) (i : Z)
    (course : Course) (school : Org) (term : AcademicSession) : Class :=
  {| Class_BaseModel := active_BaseModel classId now;
     Class_Title := Course_Title course;
     Class_ClassCode := Course_CourseCode course +:+ "-S" +:+ fmt_d i;
     Class_ClassType := "scheduled";
     Class_Location := "";
     Class_Grades := ["10"];
     Class_Subjects := ["General"];
     Class_Course := {| GUIDRef_Href := "/courses/" +:+ sourcedId course;
                        GUIDRef_SourcedId := sourcedId course;
                        GUIDRef_Type := "course" |};
     Class_School := {| GUIDRef_Href := "/schools/" +:+ sourcedId school;
                        GUIDRef_SourcedId := sourcedId school;
                        GUIDRef_Type := "school" |};
     Class_Terms := [ {| GUIDRef_Href := "/terms/" +:+ sourcedId term;
                          GUIDRef_SourcedId := sourcedId term;
                          GUIDRef_Type := "term" |} ];
     Class_SubjectCodes := [];
     Class_Periods := [];
     Class_Resources := [] |}.

Definition mk_Category (id : string) (title : string) (weight : Z)
  : Category :=
  {| Category_BaseModel := bare_BaseModel id;
     Category_Title := title;
     Category_Weight := weight |}.

(** [coll[i % len(coll)]] *)
Definition pick {A} (coll : list A) (i : Z) : Gen A :=
  (j <- lift_option (go_rem i (Z.of_nat (length coll))) ;;
   lift_option (index coll j))%gen.

(** The bodies of the six loops, in program order. *)
Definition gen_org (i : Z) : Gen unit :=
  (schoolId <- uuid_New_String ;;
   now <- time_Now ;;
   modify_ds (fun d =>
     set_Orgs (append (Orgs d) (mk_Org schoolId now i)) d))%gen.

Definition gen_student (i : Z) : Gen unit :=
  (userId <- uuid_New_String ;;
   d <- get_ds ;;
   school <- pick (Orgs d) i ;;
   now <- time_Now ;;
   modify_ds (fun d =>
     set_Users (append (Users d) (mk_student userId now i school)) d))%gen.

Definition gen_teacher (i : Z) : Gen unit :=
  (userId <- uuid_New_String ;;
   d <- get_ds ;;
   school <- pick (Orgs d) i ;;
   now <- time_Now ;;
   modify_ds (fun d =>
     set_Users (append (Users d) (mk_teacher userId now i school)) d))%gen.

Definition gen_term (i : Z) : Gen unit :=
  (termId <- uuid_New_String ;;
   now <- time_Now ;;
   modify_ds (fun d =>
     set_AcademicSessions
       (append (AcademicSessions d) (mk_AcademicSession termId now i)) d))%gen.

Definition gen_course (i : Z) : Gen unit :=
  (courseId <- uuid_New_String ;;
   now <- time_Now ;;
   modify_ds (fun d =>
     set_Courses (append (Courses d) (mk_Course courseId now i)) d))%gen.

Definition gen_class (i : Z) : Gen unit :=
  (classId <- uuid_New_String ;;
   d <- get_ds ;;
   course <- pick (Courses d) i ;;
   school <- pick (Orgs d) i ;;
   term <- pick (AcademicSessions d) i ;;
   now <- time_Now ;;
   modify_ds (fun d =>
     set_Classes
       (append (Classes d) (mk_Class classId now i course school term)) d))%gen.

Definition gen_categories : Gen unit :=
  (id1 <- uuid_New_String ;;
   id2 <- uuid_New_String ;;
   id3 <- uuid_New_String ;;
   modify_ds (fun d =>
     set_Categories
       (Categories d ++ [ mk_Category id1 "Homework" 20;
                          mk_Category id2 "Exams" 50;
                          mk_Category id3 "Participation" 30 ]) d))%gen.

Definition populate : Gen unit :=
  (for_range 1 10 gen_org ;;
   for_range 1 1000 gen_student ;;
   for_range 1 250 gen_teacher ;;
   for_range 1 4 gen_term ;;
   for_range 1 50 gen_course ;;
   for_range 1 500 gen_class ;;
   gen_categories)%gen.

(** [NewDataStore()]: [None] would be a panic. *)
Definition NewDataStore : option DataStore :=
  match populate {| ds := empty_DataStore; drawn := 0; ticks := 0 |} with
  | Some (_, s) => Some (ds s)
  | None => None
  end.

End Generator.

(** ** The query handlers *)

(** The value handed to the JSON encoder: every handler builds a map
    with a single key, whose value is a slice of records, one record, or
    a message. *)
Inductive JSONData :=
  | map_Orgs (key : string) (v : list Org)
  | map_Org (key : string) (v : Org)
  | map_Users (key : string) (v : list User)
  | map_User (key : string) (v : User)
  | map_Courses (key : string) (v : list Course)
  | map_Course (key : string) (v : Course)
  | map_Classes (key : string) (v : list Class)
  | map_Class (key : string) (v : Class)
  | map_Categories (key : string) (v : list Category)
  | map_Enrollments (key : string) (v : list Enrollment)
  | map_Enrollment (key : string) (v : Enrollment)
  | map_AcademicSessions (key : string) (v : list AcademicSession)
  | map_AcademicSession (key : string) (v : AcademicSession)
  | map_string (key : string) (v : string).

(** What a handler leaves in its [http.ResponseWriter]. *)
Record Response := {
  ContentType : string;
  StatusCode : Z;
  Body : JSONData
}.

Definition StatusOK : Z := 200.
Definition StatusNotFound : Z := 404.

Definition writeJSON (status : Z) (data : JSONData) : Response :=
  {| ContentType := "application/json"; StatusCode := status; Body := data |}.

(** The part of [*http.Request] the handlers read: the URL parameters
    bound by the router. [chi.URLParam] yields the empty string for a
    key that is not bound. *)
Record Request := { URLParams : list (string * string) }.

Fixpoint URLParam_lookup (ps : list (string * string)) (key : string)
  : string :=
  match ps with
  | [] => ""
  | (k, v) :: ps' => if String.eqb k key then v else URLParam_lookup ps' key
  end.

Definition URLParam (r : Request) (key : string) : string :=
  URLParam_lookup (URLParams r) key.

Record APIHandlers := { Store : DataStore }.

(** [for _, x := range s { body }] where the body may [return]: [body x]
    is [Some resp] when the iteration returns [resp], [None] when it
    falls through to the next one; [after] is the code that follows the
    loop. *)
Fixpoint range_return {A R} (s : list A) (body : A -> option R) (after : R)
  : R :=
  match s with
  | [] => after
  | x :: s' =>
      match body x with
      | Some resp => resp
      | None => range_return s' body after
      end
  end.

(** [for _, x := range s { body }] where the body updates a local
    variable. *)
Definition range_do {A V} (s : list A) (body : A -> V -> V) (init : V) : V :=
  fold_left (fun v x => body x v) s init.

Section Handlers.

Variable h : APIHandlers.

Definition getOrgs (r : Request) : Response :=
  writeJSON StatusOK (map_Orgs "orgs" (Orgs (Store h))).

Definition getOrg (r : Request) : Response :=
  let id := URLParam r "id" in
  range_return (Orgs (Store h))
    (fun org =>
       if String.eqb (sourcedId org) id
       then Some (writeJSON StatusOK (map_Org "org" org))
       else None)
    (writeJSON StatusNotFound (map_string "error" "Org not found")).

Definition getSchools (r : Request) : Response :=
  let schools :=
    range_do (Orgs (Store h))
      (fun org schools =>
         if String.eqb (Org_Type org) "school"
         then append schools org else schools)
      [] in
  writeJSON StatusOK (map_Orgs "orgs" schools).

Definition getSchool (r : Request) : Response :=
  let id := URLParam r "id" in
  range_return (Orgs (Store h))
    (fun org =>
       if String.eqb (sourcedId org) id && String.eqb (Org_Type org) "school"
       then Some (writeJSON StatusOK (map_Org "org" org))
       else None)
    (writeJSON StatusNotFound (map_string "error" "School not found")).

Definition getUsers (r : Request) : Response :=
  writeJSON StatusOK (map_Users "users" (Users (Store h))).

Definition getUser (r : Request) : Response :=
  let id := URLParam r "id" in
  range_return (Users (Store h))
    (fun user =>
       if String.eqb (sourcedId user) id
       then Some (writeJSON StatusOK (map_User "user" user))
       else None)
    (writeJSON StatusNotFound (map_string "error" "User not found")).

Definition getTeachers (r : Request) : Response :=
  let teachers :=
    range_do (Users (Store h))
      (fun user teachers =>
         if String.eqb (User_Role user) "teacher"
         then append teachers user else teachers)
      [] in
  writeJSON StatusOK (map_Users "users" teachers).

Definition getTeacher (r : Request) : Response :=
  let id := URLParam r "id" in
  range_return (Users (Store h))
    (fun user =>
       if String.eqb (sourcedId user) id
          && String.eqb (User_Role user) "teacher"
       then Some (writeJSON StatusOK (map_User "user" user))
       else None)
    (writeJSON StatusNotFound (map_string "error" "Teacher not found")).

Definition getStudents (r : Request) : Response :=
  let students :=
    range_do (Users (Store h))
      (fun user students =>
         if String.eqb (User_Role user) "student"
         then append students user else students)
      [] in
  writeJSON StatusOK (map_Users "users" students).

Definition getStudent (r : Request) : Response :=
  let id := URLParam r "id" in
  range_return (Users (Store h))
    (fun user =>
       if String.eqb (sourcedId user) id
          && String.eqb (User_Role user) "student"
       then Some (writeJSON StatusOK (map_User "user" user))
       else None)
    (writeJSON StatusNotFound (map_string "error" "Student not found")).

Definition getCourses (r : Request) : Response :=
  writeJSON StatusOK (map_Courses "courses" (Courses (Store h))).

Definition getCourse (r : Request) : Response :=
  let id := URLParam r "id" in
  range_return (Courses (Store h))
    (fun course =>
       if String.eqb (sourcedId course) id
       then Some (writeJSON StatusOK (map_Course "course" course))
       else None)
    (writeJSON StatusNotFound (map_string "error" "Course not found")).

Definition getClasses (r : Request) : Response :=
  writeJSON StatusOK (map_Classes "classes" (Classes (Store h))).

Definition getClass (r : Request) : Response :=
  let id := URLParam r "id" in
  range_return (Classes (Store h))
    (fun class =>
       if String.eqb (sourcedId class) id
       then Some (writeJSON StatusOK (map_Class "class" class))
       else None)
    (writeJSON StatusNotFound (map_string "error" "Class not found")).

(** The request is not read: categories are global in this mock. *)
Definition getCategoriesForClass (r : Request) : Response :=
  writeJSON StatusOK (map_Categories "categories" (Categories (Store h))).

Definition getEnrollments (r : Request) : Response :=
  writeJSON StatusOK (map_Enrollments "enrollments" (Enrollments (Store h))).

Definition getEnrollment (r : Request) : Response :=
  let id := URLParam r "id" in
  range_return (Enrollments (Store h))
    (fun enrollment =>
       if String.eqb (sourcedId enrollment) id
       then Some (writeJSON StatusOK (map_Enrollment "enrollment" enrollment))
       else None)
    (writeJSON StatusNotFound (map_string "error" "Enrollment not found")).

Definition getTerms (r : Request) : Response :=
  let terms :=
    range_do (AcademicSessions (Store h))
      (fun session terms =>
         if String.eqb (AcademicSession_Type session) "term"
         then append terms session else terms)
      [] in
  writeJSON StatusOK (map_AcademicSessions "academicSessions" terms).

Definition getTerm (r : Request) : Response :=
  let id := URLParam r "id" in
  range_return (AcademicSessions (Store h))
    (fun session =>
       if String.eqb (sourcedId session) id
          && String.eqb (AcademicSession_Type session) "term"
       then Some (writeJSON StatusOK
                    (map_AcademicSession "academicSession" session))
       else None)
    (writeJSON StatusNotFound (map_string "error" "Term not found")).

Definition getAcademicSessions (r : Request) : Response :=
  writeJSON StatusOK
    (map_AcademicSessions "academicSessions" (AcademicSessions (Store h))).

Definition getAcademicSession (r : Request) : Response :=
  let id := URLParam r "id" in
  range_return (AcademicSessions (Store h))
    (fun session =>
       if String.eqb (sourcedId session) id
       then Some (writeJSON StatusOK
                    (map_AcademicSession "academicSession" session))
       else None)
    (writeJSON StatusNotFound
       (map_string "error" "Academic Session not found")).

Definition getGradingPeriods (r : Request) : Response :=
  let periods :=
    range_do (AcademicSessions (Store h))
      (fun session periods =>
         if String.eqb (AcademicSession_Type session) "gradingPeriod"
         then append periods session else periods)
      [] in
  writeJSON StatusOK (map_AcademicSessions "academicSessions" periods).

Definition getGradingPeriod (r : Request) : Response :=
  let id := URLParam r "id" in
  range_return (AcademicSessions (Store h))
    (fun session =>
       if String.eqb (sourcedId session) id
          && String.eqb (AcademicSession_Type session) "gradingPeriod"
       then Some (writeJSON StatusOK
                    (map_AcademicSession "academicSession" session))
       else None)
    (writeJSON StatusNotFound (map_string "error" "Grading Period not found")).

End Handlers.

(** ** The authentication middleware ([main.go]) *)

(** What the middleware reads of a request: the path of its URL and its
    header, a map from canonical header names to the values sent. *)
Record HTTPRequest := {
  URL_Path : string;
  Header : gmap string (list string)
}.

(** [h.Get(key)] for a canonical [key]: the first value stored under
    the key, the empty string when there is none. *)
Definition Header_Get (hd : gmap string (list string)) (key : string)
  : string :=
  match hd !! key with
  | Some (v :: _) => v
  | _ => ""
  end.

(** [strings.HasPrefix(s, prefix)] *)
Definition strings_HasPrefix (s prefix : string) : bool :=
  String.prefix prefix s.

(** What ends up in the response writer: what the next handler wrote,
    or the plain-text error written by [http.Error], which ends the
    message with a newline. *)
Inductive Reply (R : Type) :=
  | passed (r : R)
  | text_error (status : Z) (body : string).
Arguments passed {R} r.
Arguments text_error {R} status body.

Definition StatusUnauthorized : Z := 401.

Definition http_Error {R} (error : string) (code : Z) : Reply R :=
  text_error code (error +:+ String (Ascii.ascii_of_nat 10) "").

(** The function installed by [r.Use] in [main]; [next] stands for the
    rest of the chain, the router included. *)
Definition mockAuth {R} (next : HTTPRequest -> R) (r : HTTPRequest)
  : Reply R :=
  if strings_HasPrefix (URL_Path r) "/swagger/" then passed (next r)
  else
    let authHeader := Header_Get (Header r) "Authorization" in
    if String.eqb authHeader "" then
      http_Error "Unauthorized: Missing Authorization header"
        StatusUnauthorized
    else passed (next r).

(** The base path under which [main] mounts the API routes. *)
Definition api_base : string := "/ims/oneroster/v1p1".

(** * Vocabulary of the properties *)

(** [GUIDRef{Href: prefix + id, SourcedId: id, Type: type}] *)
Definition ref_to (prefix type id : string) : GUIDRef :=
  {| GUIDRef_Href := prefix +:+ id; GUIDRef_SourcedId := id;
     GUIDRef_Type := type |}.

(** The users of one role, in store order: what the [/students] and
    [/teachers] collections list. *)
Definition role_group (d : DataStore) (role : string) : list User :=
  filter (fun u => User_Role u = role) (Users d).

Definition OK (data : JSONData) : Response := writeJSON StatusOK data.
Definition NotFound (msg : string) : Response :=
  writeJSON StatusNotFound (map_string "error" msg).

(** The contract of a get-by-id handler over the collection [coll] with
    the fixed predicate [P]: [resp] is its response to the id [id],
    [found y] the success response carrying [y] and [not_found] the 404
    response of the handler.
    - When some record of [coll] has the id and satisfies [P], the
      handler answers [found y] for the first such record [y].
    - When no record of [coll] has the id, it answers [not_found]. *)
Definition lookup_contract {A} `{Embeds A} (coll : list A) (P : A -> Prop)
    (id : string) (found : A -> Response) (not_found resp : Response) : Prop :=
  (forall x, x ∈ coll -> sourcedId x = id -> P x ->
     exists pre y post,
       coll = pre ++ y :: post /\
       (forall z, z ∈ pre -> ~ (sourcedId z = id /\ P z)) /\
       sourcedId y = id /\ P y /\ resp = found y)
  /\ ((forall x, x ∈ coll -> sourcedId x <> id) -> resp = not_found).

(** The first [n] identifiers returned by [uuid.New()] are pairwise
    distinct. *)
Definition collision_free (uuid_source : nat -> string) (n : nat) : Prop :=
  forall i j, (i < n)%nat -> (j < n)%nat ->
    uuid_source i = uuid_source j -> i = j.

(** The records of the five collections built by the loops do carry the
    three base fields: a drawn identifier, the status "active" and a
    reading of the clock. *)
Definition stamped {A} `{Embeds A} (uuid_source : nat -> string)
    (clock : nat -> Time) (x : A) : Prop :=
  status x = "active" /\
  exists n, sourcedId x = uuid_source n /\ dateLastModified x = clock n.

(** ** The generated store in closed form *)

Section ClosedForm.

Variable uuid_source : nat -> string.
Variable clock : nat -> Time.

(** The record built by iteration [i = 1 + k] of each loop: the loops
    draw identifiers 0-9, 10-1009, 1010-1259, 1260-1263, 1264-1313 and
    1314-1813, and read the clock as many times. *)
Definition org_at (k : nat) : Org :=
  mk_Org (uuid_source k) (clock k) (1 + Z.of_nat k).
Definition student_at (k : nat) : User :=
  mk_student (uuid_source (10 + k)) (clock (10 + k)) (1 + Z.of_nat k)
    (org_at (S k mod 10)).
Definition teacher_at (k : nat) : User :=
  mk_teacher (uuid_source (1010 + k)) (clock (1010 + k)) (1 + Z.of_nat k)
    (org_at (S k mod 10)).
Definition term_at (k : nat) : AcademicSession :=
  mk_AcademicSession (uuid_source (1260 + k)) (clock (1260 + k))
    (1 + Z.of_nat k).
Definition course_at (k : nat) : Course :=
  mk_Course (uuid_source (1264 + k)) (clock (1264 + k)) (1 + Z.of_nat k).
Definition class_at (k : nat) : Class :=
  mk_Class (uuid_source (1314 + k)) (clock (1314 + k)) (1 + Z.of_nat k)
    (course_at (S k mod 50)) (org_at (S k mod 10)) (term_at (S k mod 4)).
Definition the_categories : list Category :=
  [ mk_Category (uuid_source 1814) "Homework" 20;
    mk_Category (uuid_source 1815) "Exams" 50;
    mk_Category (uuid_source 1816) "Participation" 30 ].

(** The store after [k] iterations of each loop. *)
Definition store_orgs (k : nat) : DataStore :=
  set_Orgs (org_at <$> seq 0 k) empty_DataStore.
Definition store_students (k : nat) : DataStore :=
  set_Users (student_at <$> seq 0 k) (store_orgs 10).
Definition store_teachers (k : nat) : DataStore :=
  set_Users ((student_at <$> seq 0 1000) ++ (teacher_at <$> seq 0 k))
    (store_orgs 10).
Definition store_terms (k : nat) : DataStore :=
  set_AcademicSessions (term_at <$> seq 0 k) (store_teachers 250).
Definition store_courses (k : nat) : DataStore :=
  set_Courses (course_at <$> seq 0 k) (store_terms 4).
Definition store_classes (k : nat) : DataStore :=
  set_Classes (class_at <$> seq 0 k) (store_courses 50).
Definition generated : DataStore :=
  set_Categories the_categories (store_classes 500).

Definition at_draw (d : DataStore) (n : nat) : GenState :=
  {| ds := d; drawn := n; ticks := n |}.

End ClosedForm.

(** A collision-free source (the decimal numerals) and a clock, to run
    the generator on. *)
Definition numeral_source (n : nat) : string := pretty n.
Definition counting_clock (n : nat) : Time := Z.of_nat n + 1.

(** The handlers of a server started on these, as [main] sets them up,
    and a request whose route bound [{id}]. *)
Definition demo_store : DataStore := generated numeral_source counting_clock.
Definition demo : APIHandlers := {| Store := demo_store |}.
Definition request_for (id : string) : Request :=
  {| URLParams := [("id", id)] |}.

(** ** Vocabulary of the further properties *)

(** No two records of a collection that has a get-by-id handler share a
    sourcedId. *)
Definition unique_ids (d : DataStore) : Prop :=
  NoDup (sourcedId <$> Orgs d) /\
  NoDup (sourcedId <$> Users d) /\
  NoDup (sourcedId <$> Courses d) /\
  NoDup (sourcedId <$> Classes d) /\
  NoDup (sourcedId <$> Enrollments d) /\
  NoDup (sourcedId <$> AcademicSessions d).

(** The sourcedIds of the whole store, collection after collection in
    the order the generator fills them. *)
Definition all_sourcedIds (d : DataStore) : list string :=
  (sourcedId <$> Orgs d) ++ (sourcedId <$> Users d)
  ++ (sourcedId <$> AcademicSessions d) ++ (sourcedId <$> Courses d)
  ++ (sourcedId <$> Classes d) ++ (sourcedId <$> Categories d).

(** The users of a role whose single org reference points at [o], and
    the classes whose course, school or single term reference points at
    a given record. *)
Definition org_members (d : DataStore) (role : string) (o : Org)
  : list User :=
  filter (fun u => GUIDRef_SourcedId <$> User_Orgs u = [sourcedId o])
    (role_group d role).
Definition classes_of_course (d : DataStore) (course : Course) : list Class :=
  filter (fun c => GUIDRef_SourcedId (Class_Course c) = sourcedId course)
    (Classes d).
Definition classes_of_school (d : DataStore) (school : Org) : list Class :=
  filter (fun c => GUIDRef_SourcedId (Class_School c) = sourcedId school)
    (Classes d).
Definition classes_of_term (d : DataStore) (term : AcademicSession)
  : list Class :=
  filter (fun c => GUIDRef_SourcedId <$> Class_Terms c = [sourcedId term])
    (Classes d).

(** The dateLastModified of the records of the five collections built by
    the loops, in generation order. *)
Definition all_stamps (d : DataStore) : list Time :=
  (dateLastModified <$> Orgs d) ++ (dateLastModified <$> Users d)
  ++ (dateLastModified <$> AcademicSessions d)
  ++ (dateLastModified <$> Courses d) ++ (dateLastModified <$> Classes d).

(** The state [NewDataStore] starts from. *)
Definition initial_state : GenState :=
  {| ds := empty_DataStore; drawn := 0; ticks := 0 |}.

(** A JSON response with status 200. *)
Definition json_ok (resp : Response) : Prop :=
  ContentType resp = "application/json" /\ StatusCode resp = StatusOK.

(** A JSON response that is either a 200 or the 404 error map. *)
Definition json_ok_or_not_found (resp : Response) : Prop :=
  ContentType resp = "application/json" /\
  (StatusCode resp = StatusOK \/ exists msg, resp = NotFound msg).

(** * Properties *)

(** ** Counted loops *)

(** A counted loop whose [k]-th iteration takes the state [trace k] to
    [trace (S k)] runs to completion and ends in [trace n]. *)
Lemma iterate_from_trace (body : Z -> Gen unit) (n : nat) :
  forall (lo : Z) (trace : nat -> GenState),
    (forall k, (k < n)%nat ->
       body (lo + Z.of_nat k) (trace k) = Some (tt, trace (S k))) ->
    iterate_from n lo body (trace 0%nat) = Some (tt, trace n).
Proof.
  induction n as [|n IH]; intros lo trace Hstep.
  - reflexivity.
  - cbn [iterate_from]. unfold bind at 1.
    specialize (Hstep 0%nat ltac:(lia)) as H0.
    rewrite Z.add_0_r in H0. rewrite H0.
    apply (IH (lo + 1) (fun k => trace (S k))).
    intros k Hk. rewrite <- (Hstep (S k)) by lia.
    f_equal. lia.
Qed.

Lemma for_range_trace (body : Z -> Gen unit) (lo hi : Z) (n : nat)
    (trace : nat -> GenState) :
  Z.to_nat (hi + 1 - lo) = n ->
  (forall k, (k < n)%nat ->
     body (lo + Z.of_nat k) (trace k) = Some (tt, trace (S k))) ->
  for_range lo hi body (trace 0%nat) = Some (tt, trace n).
Proof.
  intros <- Hstep. unfold for_range. now apply iterate_from_trace.
Qed.

Lemma bind_run {A B} (m : Gen A) (k : A -> Gen B) (s s' : GenState) (x : A) :
  m s = Some (x, s') -> bind m k s = k x s'.
Proof. intros Hm. unfold bind. now rewrite Hm. Qed.

(** ** Indexing a collection round-robin *)

Lemma index_fmap_seq {A} (f : nat -> A) (n : nat) (j : Z) :
  0 <= j < Z.of_nat n ->
  index (f <$> seq 0 n) j = Some (f (Z.to_nat j)).
Proof.
  intros Hj. unfold index.
  destruct (Z.ltb_spec j 0) as [|_]; [lia|].
  rewrite list_lookup_fmap, lookup_seq_lt by lia. reflexivity.
Qed.

Lemma go_rem_succ (k n : nat) :
  (0 < n)%nat ->
  go_rem (1 + Z.of_nat k) (Z.of_nat n) = Some (Z.of_nat (S k mod n)).
Proof.
  intros Hn. unfold go_rem.
  destruct (Z.eqb_spec (Z.of_nat n) 0) as [|_]; [lia|].
  rewrite Z.rem_mod_nonneg by lia.
  rewrite Nat2Z.inj_mod. do 2 f_equal. lia.
Qed.

Lemma pick_fmap_seq {A} (f : nat -> A) (n k : nat) (s : GenState) :
  (0 < n)%nat ->
  pick (f <$> seq 0 n) (1 + Z.of_nat k) s = Some (f (S k mod n)%nat, s).
Proof.
  intros Hn. unfold pick, bind.
  rewrite length_fmap, length_seq, go_rem_succ by done. cbn [lift_option ret].
  rewrite index_fmap_seq, Nat2Z.id; [done|].
  pose proof (Nat.mod_upper_bound (S k) n). lia.
Qed.

(** ** The generator yields the closed form *)

Section GeneratedStore.

Variable uuid_source : nat -> string.
Variable clock : nat -> Time.

Abbreviation after_orgs := (store_orgs uuid_source clock).
Abbreviation after_students := (store_students uuid_source clock).
Abbreviation after_teachers := (store_teachers uuid_source clock).
Abbreviation after_terms := (store_terms uuid_source clock).
Abbreviation after_courses := (store_courses uuid_source clock).
Abbreviation after_classes := (store_classes uuid_source clock).
Abbreviation org_k := (org_at uuid_source clock).
Abbreviation term_k := (term_at uuid_source clock).
Abbreviation course_k := (course_at uuid_source clock).
Abbreviation gen := (generated uuid_source clock).

Ltac run_body :=
  cbv [gen_org gen_student gen_teacher gen_term gen_course gen_class
       bind ret get_ds modify_ds uuid_New_String time_Now at_draw
       ds drawn ticks].

Ltac store_fields :=
  cbv [store_orgs store_students store_teachers store_terms store_courses
       store_classes set_Orgs set_Users set_Courses set_Classes
       set_AcademicSessions set_Categories empty_DataStore append
       Orgs Users Courses Classes Enrollments AcademicSessions Categories].

Ltac snoc_seq k :=
  rewrite (seq_S k 0), fmap_app, ?app_assoc; reflexivity.

Lemma gen_org_step (k : nat) :
  gen_org uuid_source clock (1 + Z.of_nat k) (at_draw (after_orgs k) k)
  = Some (tt, at_draw (after_orgs (S k)) (S k)).
Proof. run_body. store_fields. do 4 f_equal. snoc_seq k. Qed.

Lemma gen_student_step (k : nat) :
  gen_student uuid_source clock (1 + Z.of_nat k)
    (at_draw (after_students k) (10 + k))
  = Some (tt, at_draw (after_students (S k)) (10 + S k)).
Proof.
  run_body.
  replace (Orgs (after_students k)) with (org_k <$> seq 0 10) by reflexivity.
  rewrite pick_fmap_seq by lia. store_fields.
  rewrite (Nat.add_succ_r _ k). do 4 f_equal. snoc_seq k.
Qed.

Lemma gen_teacher_step (k : nat) :
  gen_teacher uuid_source clock (1 + Z.of_nat k)
    (at_draw (after_teachers k) (1010 + k))
  = Some (tt, at_draw (after_teachers (S k)) (1010 + S k)).
Proof.
  run_body.
  replace (Orgs (after_teachers k)) with (org_k <$> seq 0 10) by reflexivity.
  rewrite pick_fmap_seq by lia. store_fields.
  rewrite (Nat.add_succ_r _ k). do 4 f_equal. snoc_seq k.
Qed.

Lemma gen_term_step (k : nat) :
  gen_term uuid_source clock (1 + Z.of_nat k)
    (at_draw (after_terms k) (1260 + k))
  = Some (tt, at_draw (after_terms (S k)) (1260 + S k)).
Proof.
  run_body. store_fields.
  rewrite (Nat.add_succ_r _ k). do 4 f_equal. snoc_seq k.
Qed.

Lemma gen_course_step (k : nat) :
  gen_course uuid_source clock (1 + Z.of_nat k)
    (at_draw (after_courses k) (1264 + k))
  = Some (tt, at_draw (after_courses (S k)) (1264 + S k)).
Proof.
  run_body. store_fields.
  rewrite (Nat.add_succ_r _ k). do 4 f_equal. snoc_seq k.
Qed.

Lemma gen_class_step (k : nat) :
  gen_class uuid_source clock (1 + Z.of_nat k)
    (at_draw (after_classes k) (1314 + k))
  = Some (tt, at_draw (after_classes (S k)) (1314 + S k)).
Proof.
  run_body.
  replace (Courses (after_classes k)) with (course_k <$> seq 0 50)
    by reflexivity.
  replace (Orgs (after_classes k)) with (org_k <$> seq 0 10) by reflexivity.
  replace (AcademicSessions (after_classes k)) with (term_k <$> seq 0 4)
    by reflexivity.
  rewrite !pick_fmap_seq by lia. store_fields.
  rewrite (Nat.add_succ_r _ k). do 4 f_equal. snoc_seq k.
Qed.

Lemma gen_categories_run :
  gen_categories uuid_source (at_draw (after_classes 500) 1814)
  = Some (tt, {| ds := gen; drawn := 1817; ticks := 1814 |}).
Proof. reflexivity. Qed.

(** The six loops and the final [append] run without a panic and
    leave the store [gen], after 1817 identifiers drawn and
    1814 readings of the clock. *)
Lemma populate_generated :
  populate uuid_source clock (at_draw empty_DataStore 0)
  = Some (tt, {| ds := gen; drawn := 1817; ticks := 1814 |}).
Proof.
  unfold populate.
  rewrite (bind_run _ _ _ (at_draw (after_orgs 10) 10) tt).
  2: { apply (for_range_trace _ 1 10 10 (fun k => at_draw (after_orgs k) k));
       [reflexivity | intros k _; apply gen_org_step]. }
  rewrite (bind_run _ _ _ (at_draw (after_students 1000) 1010) tt).
  2: { apply (for_range_trace _ 1 1000 1000
                (fun k => at_draw (after_students k) (10 + k)));
       [reflexivity | intros k _; apply gen_student_step]. }
  rewrite (bind_run _ _ _ (at_draw (after_teachers 250) 1260) tt).
  2: { apply (for_range_trace _ 1 250 250
                (fun k => at_draw (after_teachers k) (1010 + k)));
       [reflexivity | intros k _; apply gen_teacher_step]. }
  rewrite (bind_run _ _ _ (at_draw (after_terms 4) 1264) tt).
  2: { apply (for_range_trace _ 1 4 4
                (fun k => at_draw (after_terms k) (1260 + k)));
       [reflexivity | intros k _; apply gen_term_step]. }
  rewrite (bind_run _ _ _ (at_draw (after_courses 50) 1314) tt).
  2: { apply (for_range_trace _ 1 50 50
                (fun k => at_draw (after_courses k) (1264 + k)));
       [reflexivity | intros k _; apply gen_course_step]. }
  rewrite (bind_run _ _ _ (at_draw (after_classes 500) 1814) tt).
  2: { apply (for_range_trace _ 1 500 500
                (fun k => at_draw (after_classes k) (1314 + k)));
       [reflexivity | intros k _; apply gen_class_step]. }
  apply gen_categories_run.
Qed.

Theorem NewDataStore_generated :
  NewDataStore uuid_source clock = Some gen.
Proof.
  unfold NewDataStore.
  change {| ds := empty_DataStore; drawn := 0; ticks := 0 |}
    with (at_draw empty_DataStore 0).
  now rewrite populate_generated.
Qed.

End GeneratedStore.

(** ** Lists built by mapping over a range *)

Lemma lookup_fmap_seq {A} (f : nat -> A) (n i : nat) :
  (i < n)%nat -> (f <$> seq 0 n) !! i = Some (f i).
Proof. intros Hi. now rewrite list_lookup_fmap, lookup_seq_lt. Qed.

Lemma elem_of_fmap_seq {A} (f : nat -> A) (n : nat) (x : A) :
  x ∈ f <$> seq 0 n <-> exists k, (k < n)%nat /\ x = f k.
Proof.
  rewrite list_elem_of_fmap. split.
  - intros (k & -> & Hk). apply elem_of_seq in Hk. exists k. split; [lia|done].
  - intros (k & Hk & ->). exists k. split; [done|]. apply elem_of_seq. lia.
Qed.

Lemma filter_fmap_all {A B} (P : B -> Prop) `{forall y, Decision (P y)}
    (f : A -> B) (l : list A) :
  (forall x, P (f x)) -> filter P (f <$> l) = f <$> l.
Proof.
  intros HP. induction l as [|x l IH]; [done|].
  rewrite fmap_cons, filter_cons_True by apply HP. now rewrite IH.
Qed.

Lemma filter_fmap_none {A B} (P : B -> Prop) `{forall y, Decision (P y)}
    (f : A -> B) (l : list A) :
  (forall x, ~ P (f x)) -> filter P (f <$> l) = [].
Proof.
  intros HP. induction l as [|x l IH]; [done|].
  rewrite fmap_cons, filter_cons_False by apply HP. exact IH.
Qed.

Lemma fmap_fmap_const {A B C} (g : B -> C) (f : A -> B) (c : C) (l : list A) :
  (forall x, g (f x) = c) -> g <$> (f <$> l) = replicate (length l) c.
Proof.
  intros Hc. induction l as [|x l IH]; [done|].
  cbn [fmap list_fmap length replicate]. rewrite Hc. f_equal. exact IH.
Qed.

Section Dataset.

Variable uuid_source : nat -> string.
Variable clock : nat -> Time.

Abbreviation gen := (generated uuid_source clock).
Abbreviation org_k := (org_at uuid_source clock).
Abbreviation student_k := (student_at uuid_source clock).
Abbreviation teacher_k := (teacher_at uuid_source clock).
Abbreviation term_k := (term_at uuid_source clock).
Abbreviation course_k := (course_at uuid_source clock).
Abbreviation class_k := (class_at uuid_source clock).

Lemma generated_Orgs : Orgs gen = org_k <$> seq 0 10.
Proof. reflexivity. Qed.
Lemma generated_Users :
  Users gen
  = ((student_k <$> seq 0 1000) ++ (teacher_k <$> seq 0 250))%list.
Proof. reflexivity. Qed.
Lemma generated_AcademicSessions : AcademicSessions gen = term_k <$> seq 0 4.
Proof. reflexivity. Qed.
Lemma generated_Courses : Courses gen = course_k <$> seq 0 50.
Proof. reflexivity. Qed.
Lemma generated_Classes : Classes gen = class_k <$> seq 0 500.
Proof. reflexivity. Qed.
Lemma generated_Categories : Categories gen = the_categories uuid_source.
Proof. reflexivity. Qed.
Lemma generated_Enrollments : Enrollments gen = [].
Proof. reflexivity. Qed.

Lemma generated_students :
  role_group gen "student" = student_k <$> seq 0 1000.
Proof.
  unfold role_group. rewrite generated_Users, filter_app.
  rewrite filter_fmap_all by reflexivity.
  rewrite filter_fmap_none by (intros k; discriminate).
  apply app_nil_r.
Qed.

Lemma generated_teachers :
  role_group gen "teacher" = teacher_k <$> seq 0 250.
Proof.
  unfold role_group. rewrite generated_Users, filter_app.
  rewrite filter_fmap_none by (intros k; discriminate).
  now rewrite filter_fmap_all by reflexivity.
Qed.

(** C1. The generator returns a store with exactly 10 orgs, 1250 users
    (the roles, in store order, are 1000 times "student" followed by
    250 times "teacher"), 4 academic sessions, 50 courses, 500 classes,
    3 categories and no enrollment. *)
Theorem NewDataStore_cardinality :
  exists d, NewDataStore uuid_source clock = Some d /\
    length (Orgs d) = 10%nat /\
    length (Users d) = 1250%nat /\
    User_Role <$> Users d
      = (replicate 1000 "student" ++ replicate 250 "teacher")%list /\
    length (AcademicSessions d) = 4%nat /\
    length (Courses d) = 50%nat /\
    length (Classes d) = 500%nat /\
    length (Categories d) = 3%nat /\
    length (Enrollments d) = 0%nat.
Proof.
  exists gen. split; [apply NewDataStore_generated|].
  rewrite generated_Orgs, generated_Users, generated_AcademicSessions,
    generated_Courses, generated_Classes, generated_Categories,
    generated_Enrollments.
  rewrite fmap_app, length_app, !length_fmap, !length_seq.
  rewrite (fmap_fmap_const User_Role student_k "student") by reflexivity.
  rewrite (fmap_fmap_const User_Role teacher_k "teacher") by reflexivity.
  rewrite !length_seq. repeat split; reflexivity.
Qed.

Lemma succ_pred_mod (k n : nat) :
  (1 <= k)%nat -> (S (k - 1) mod n = k mod n)%nat.
Proof. intros Hk. f_equal. lia. Qed.

(** C2. The [k]-th student and the [k]-th teacher (counted from 1 within
    the role) each carry exactly one org reference, to the org at
    position [k mod 10]; the [k]-th class refers to the course at
    position [k mod 50], the school at position [k mod 10], and, as its
    single term, the session at position [k mod 4]. *)
Theorem round_robin_assignment :
  exists d, NewDataStore uuid_source clock = Some d /\
    (forall k, (1 <= k <= 1000)%nat -> exists u o,
        role_group d "student" !! (k - 1)%nat = Some u /\
        Users d !! (k - 1)%nat = Some u /\
        Orgs d !! (k mod 10)%nat = Some o /\
        User_Orgs u = [ref_to "/orgs/" "org" (sourcedId o)]) /\
    (forall k, (1 <= k <= 250)%nat -> exists u o,
        role_group d "teacher" !! (k - 1)%nat = Some u /\
        Users d !! (1000 + (k - 1))%nat = Some u /\
        Orgs d !! (k mod 10)%nat = Some o /\
        User_Orgs u = [ref_to "/orgs/" "org" (sourcedId o)]) /\
    (forall k, (1 <= k <= 500)%nat -> exists c course school term,
        Classes d !! (k - 1)%nat = Some c /\
        Courses d !! (k mod 50)%nat = Some course /\
        Orgs d !! (k mod 10)%nat = Some school /\
        AcademicSessions d !! (k mod 4)%nat = Some term /\
        Class_Course c = ref_to "/courses/" "course" (sourcedId course) /\
        Class_School c = ref_to "/schools/" "school" (sourcedId school) /\
        Class_Terms c = [ref_to "/terms/" "term" (sourcedId term)]).
Proof.
  exists gen. split; [apply NewDataStore_generated|].
  rewrite generated_students, generated_teachers, generated_Users,
    generated_Orgs, generated_Classes, generated_Courses,
    generated_AcademicSessions.
  split; [|split]; intros k Hk.
  - exists (student_k (k - 1)), (org_k (k mod 10)).
    rewrite lookup_app_l by (rewrite length_fmap, length_seq; lia).
    rewrite !lookup_fmap_seq by (try apply Nat.mod_upper_bound; lia).
    repeat split. unfold student_at.
    now rewrite succ_pred_mod by lia.
  - exists (teacher_k (k - 1)), (org_k (k mod 10)).
    rewrite lookup_app_r by (rewrite length_fmap, length_seq; lia).
    rewrite length_fmap, length_seq.
    replace (1000 + (k - 1) - 1000)%nat with (k - 1)%nat by lia.
    rewrite !lookup_fmap_seq by (try apply Nat.mod_upper_bound; lia).
    repeat split. unfold teacher_at.
    now rewrite succ_pred_mod by lia.
  - exists (class_k (k - 1)), (course_k (k mod 50)), (org_k (k mod 10)),
      (term_k (k mod 4)).
    rewrite !lookup_fmap_seq by (try apply Nat.mod_upper_bound; lia).
    unfold class_at.
    rewrite !succ_pred_mod by lia. repeat split.
Qed.

(** C3. Every org reference of a generated user carries the sourcedId
    of an org of the store, and the course, school and term references
    of a generated class carry the sourcedId of a course, an org and an
    academic session of the store. *)
Theorem referential_validity :
  exists d, NewDataStore uuid_source clock = Some d /\
    (forall u r, u ∈ Users d -> r ∈ User_Orgs u ->
       exists o, o ∈ Orgs d /\ sourcedId o = GUIDRef_SourcedId r) /\
    (forall c, c ∈ Classes d ->
       (exists course, course ∈ Courses d /\
          sourcedId course = GUIDRef_SourcedId (Class_Course c)) /\
       (exists school, school ∈ Orgs d /\
          sourcedId school = GUIDRef_SourcedId (Class_School c)) /\
       (forall r, r ∈ Class_Terms c ->
          exists term, term ∈ AcademicSessions d /\
            sourcedId term = GUIDRef_SourcedId r)).
Proof.
  exists gen. split; [apply NewDataStore_generated|].
  rewrite generated_Users, generated_Orgs, generated_Classes,
    generated_Courses, generated_AcademicSessions.
  split.
  - intros u r Hu Hr.
    apply elem_of_app in Hu as [Hu|Hu];
      apply elem_of_fmap_seq in Hu as (k & Hk & ->);
      apply list_elem_of_singleton in Hr as ->;
      (exists (org_k (S k mod 10)); split; [|reflexivity]);
      apply elem_of_fmap_seq; exists (S k mod 10)%nat;
      (split; [apply Nat.mod_upper_bound; lia | reflexivity]).
  - intros c Hc. apply elem_of_fmap_seq in Hc as (k & Hk & ->).
    split; [|split].
    + exists (course_k (S k mod 50)). split; [|reflexivity].
      apply elem_of_fmap_seq. exists (S k mod 50)%nat.
      split; [apply Nat.mod_upper_bound; lia | reflexivity].
    + exists (org_k (S k mod 10)). split; [|reflexivity].
      apply elem_of_fmap_seq. exists (S k mod 10)%nat.
      split; [apply Nat.mod_upper_bound; lia | reflexivity].
    + intros r Hr. apply list_elem_of_singleton in Hr as ->.
      exists (term_k (S k mod 4)). split; [|reflexivity].
      apply elem_of_fmap_seq. exists (S k mod 4)%nat.
      split; [apply Nat.mod_upper_bound; lia | reflexivity].
Qed.

End Dataset.

(** ** The two loop shapes of the handlers *)

(** A loop that appends the elements passing a test collects, in order,
    the elements that satisfy it. *)
Lemma range_do_filter {A} (P : A -> Prop) `{forall x, Decision (P x)}
    (test : A -> bool) (s : list A) :
  (forall x, test x = true <-> P x) ->
  forall init,
    range_do s (fun x acc => if test x then append acc x else acc) init
    = init ++ filter P s.
Proof.
  intros Htest. unfold range_do.
  induction s as [|x s IH]; intros init; cbn [fold_left].
  - now rewrite app_nil_r.
  - rewrite IH. destruct (test x) eqn:Hx.
    + rewrite filter_cons_True by now apply Htest.
      unfold append. now rewrite <- app_assoc.
    + rewrite filter_cons_False; [done|].
      intros HP. apply Htest in HP. congruence.
Qed.

(** A loop that returns at the first element passing a test either
    splits the collection at that element, or finds that no element
    passes and runs the code after the loop. *)
Lemma range_return_first {A R} (test : A -> bool) (ok : A -> R) (after : R)
    (s : list A) :
  let resp :=
    range_return s (fun x => if test x then Some (ok x) else None) after in
  (exists pre y post,
      s = pre ++ y :: post /\ (forall z, z ∈ pre -> test z = false) /\
      test y = true /\ resp = ok y)
  \/ ((forall z, z ∈ s -> test z = false) /\ resp = after).
Proof.
  induction s as [|x s IH]; cbn [range_return].
  - right. split; [|done]. intros z Hz. inversion Hz.
  - destruct (test x) eqn:Hx.
    + left. exists [], x, s. repeat split; [|done].
      intros z Hz. inversion Hz.
    + destruct IH
        as [(pre & y & post & -> & Hpre & Hy & Hresp) | [Hnone Hresp]].
      * left. exists (x :: pre), y, post. repeat split; [|done|done].
        intros z Hz. apply elem_of_cons in Hz as [->|Hz]; auto.
      * right. split; [|done].
        intros z Hz. apply elem_of_cons in Hz as [->|Hz]; auto.
Qed.

Lemma range_return_contract {A} `{Embeds A} (coll : list A) (P : A -> Prop)
    (test : A -> bool) (id : string) (found : A -> Response)
    (not_found : Response) :
  (forall x, test x = true <-> sourcedId x = id /\ P x) ->
  lookup_contract coll P id found not_found
    (range_return coll (fun x => if test x then Some (found x) else None)
       not_found).
Proof.
  intros Htest.
  destruct (range_return_first test found not_found coll)
    as [(pre & y & post & Hsplit & Hpre & Hy & Hresp) | [Hnone Hresp]].
  - apply Htest in Hy as [Hid HP]. split.
    + intros _ _ _ _. exists pre, y, post. repeat split; try done.
      intros z Hz Hmatch. apply Htest in Hmatch.
      rewrite (Hpre z Hz) in Hmatch. discriminate.
    + intros Habsent. exfalso. apply (Habsent y); [|done].
      rewrite Hsplit. apply elem_of_app. right. apply elem_of_cons. now left.
  - split; [|done].
    intros x Hx Hid HP. exfalso.
    assert (test x = true) as Ht by now apply Htest.
    rewrite (Hnone x Hx) in Ht. discriminate.
Qed.

Lemma eqb_id_test (a id : string) : String.eqb a id = true <-> a = id /\ True.
Proof. rewrite String.eqb_eq. tauto. Qed.

Lemma eqb_id_and_test (a id b c : string) :
  String.eqb a id && String.eqb b c = true <-> a = id /\ b = c.
Proof. now rewrite andb_true_iff, !String.eqb_eq. Qed.

(** C4. Every get-by-id handler meets the lookup contract on its
    collection: with the id bound in the request, it answers 200 with
    the first record that has this sourcedId (and the role or type the
    handler is fixed to) whenever some record qualifies, and its own 404
    message whenever no record has this sourcedId. *)
Theorem get_by_id_contract (h : APIHandlers) (r : Request) :
  let id := URLParam r "id" in
  let d := Store h in
  lookup_contract (Orgs d) (fun _ => True) id
    (fun o => OK (map_Org "org" o)) (NotFound "Org not found") (getOrg h r)
  /\ lookup_contract (Orgs d) (fun o => Org_Type o = "school") id
    (fun o => OK (map_Org "org" o)) (NotFound "School not found")
    (getSchool h r)
  /\ lookup_contract (Users d) (fun _ => True) id
    (fun u => OK (map_User "user" u)) (NotFound "User not found") (getUser h r)
  /\ lookup_contract (Users d) (fun u => User_Role u = "teacher") id
    (fun u => OK (map_User "user" u)) (NotFound "Teacher not found")
    (getTeacher h r)
  /\ lookup_contract (Users d) (fun u => User_Role u = "student") id
    (fun u => OK (map_User "user" u)) (NotFound "Student not found")
    (getStudent h r)
  /\ lookup_contract (Courses d) (fun _ => True) id
    (fun c => OK (map_Course "course" c)) (NotFound "Course not found")
    (getCourse h r)
  /\ lookup_contract (Classes d) (fun _ => True) id
    (fun c => OK (map_Class "class" c)) (NotFound "Class not found")
    (getClass h r)
  /\ lookup_contract (Enrollments d) (fun _ => True) id
    (fun e => OK (map_Enrollment "enrollment" e))
    (NotFound "Enrollment not found") (getEnrollment h r)
  /\ lookup_contract (AcademicSessions d)
    (fun s => AcademicSession_Type s = "term") id
    (fun s => OK (map_AcademicSession "academicSession" s))
    (NotFound "Term not found") (getTerm h r)
  /\ lookup_contract (AcademicSessions d) (fun _ => True) id
    (fun s => OK (map_AcademicSession "academicSession" s))
    (NotFound "Academic Session not found") (getAcademicSession h r)
  /\ lookup_contract (AcademicSessions d)
    (fun s => AcademicSession_Type s = "gradingPeriod") id
    (fun s => OK (map_AcademicSession "academicSession" s))
    (NotFound "Grading Period not found") (getGradingPeriod h r).
Proof.
  intros id d.
  repeat match goal with |- _ /\ _ => split end;
    first
      [ apply (range_return_contract _ _
                 (fun x => String.eqb (sourcedId x) id));
        intros x; apply eqb_id_test
      | apply (range_return_contract _ _
                 (fun x => String.eqb (sourcedId x) id
                           && String.eqb (Org_Type x) "school"));
        intros x; apply eqb_id_and_test
      | apply (range_return_contract _ _
                 (fun x => String.eqb (sourcedId x) id
                           && String.eqb (User_Role x) _));
        intros x; apply eqb_id_and_test
      | apply (range_return_contract _ _
                 (fun x => String.eqb (sourcedId x) id
                           && String.eqb (AcademicSession_Type x) _));
        intros x; apply eqb_id_and_test ].
Qed.

(** The filtering loop of a list handler, started from the nil slice. *)
Lemma range_do_eqb_filter {A} (field : A -> string) (value : string)
    (s : list A) :
  range_do s
    (fun x acc => if String.eqb (field x) value then append acc x else acc) []
  = filter (fun x => field x = value) s.
Proof.
  rewrite (range_do_filter (fun x => field x = value)
             (fun x => String.eqb (field x) value)).
  - reflexivity.
  - intros x. apply String.eqb_eq.
Qed.

(** C5. Each filtered list handler answers with exactly the records of
    the corresponding list-all answer that satisfy its predicate, in the
    same order. In particular every record listed by [/teachers] is a
    teacher listed by [/users], every teacher listed by [/users] is
    listed by [/teachers], and the [/teachers] list is a sublist of the
    [/users] list. *)
Theorem filtered_lists_consistent (h : APIHandlers) (r : Request) :
  let d := Store h in
  (getOrgs h r = OK (map_Orgs "orgs" (Orgs d)) /\
   getSchools h r
   = OK (map_Orgs "orgs" (filter (fun o => Org_Type o = "school") (Orgs d))))
  /\ (getUsers h r = OK (map_Users "users" (Users d)) /\
      getTeachers h r = OK (map_Users "users" (role_group d "teacher")) /\
      getStudents h r = OK (map_Users "users" (role_group d "student")))
  /\ (getAcademicSessions h r
      = OK (map_AcademicSessions "academicSessions" (AcademicSessions d)) /\
      getTerms h r
      = OK (map_AcademicSessions "academicSessions"
              (filter (fun s => AcademicSession_Type s = "term")
                 (AcademicSessions d))) /\
      getGradingPeriods h r
      = OK (map_AcademicSessions "academicSessions"
              (filter (fun s => AcademicSession_Type s = "gradingPeriod")
                 (AcademicSessions d))))
  /\ (forall u, u ∈ role_group d "teacher" <->
                u ∈ Users d /\ User_Role u = "teacher")
  /\ role_group d "teacher" `sublist_of` Users d.
Proof.
  intros d.
  unfold getOrgs, getSchools, getUsers, getTeachers, getStudents,
    getAcademicSessions, getTerms, getGradingPeriods, role_group.
  rewrite !range_do_eqb_filter.
  repeat match goal with |- _ /\ _ => split end; try reflexivity.
  - intros u. rewrite list_elem_of_filter. tauto.
  - apply sublist_filter.
Qed.

(** ** The handlers over the generated store *)

(** When every org is a school, [/schools/{id}] and [/orgs/{id}] find
    the same record, or both answer 404. *)
Lemma getSchool_getOrg_agree (h : APIHandlers) (r : Request) :
  (forall o, o ∈ Orgs (Store h) -> Org_Type o = "school") ->
  (exists o, getSchool h r = OK (map_Org "org" o) /\
             getOrg h r = OK (map_Org "org" o))
  \/ (getSchool h r = NotFound "School not found" /\
      getOrg h r = NotFound "Org not found").
Proof.
  unfold getSchool, getOrg. cbv zeta.
  induction (Orgs (Store h)) as [|x s IH]; intros Hall; cbn [range_return].
  - now right.
  - rewrite (Hall x) by (apply elem_of_cons; now left).
    rewrite String.eqb_refl, andb_true_r.
    destruct (String.eqb (sourcedId x) (URLParam r "id")).
    + left. now exists x.
    + apply IH. intros o Ho. apply Hall, elem_of_cons. now right.
Qed.

Section Serving.

Variable uuid_source : nat -> string.
Variable clock : nat -> Time.

Abbreviation served := (generated uuid_source clock).

(** C6. Whatever id the request carries, [/classes/{id}/categories]
    answers 200 with the whole category collection of the store, which
    in the generated store holds the three categories "Homework",
    "Exams" and "Participation". *)
Theorem categories_for_any_class :
  (forall h r,
     getCategoriesForClass h r
     = OK (map_Categories "categories" (Categories (Store h)))) /\
  exists d c1 c2 c3,
    NewDataStore uuid_source clock = Some d /\
    Categories d = [c1; c2; c3] /\
    Category_Title <$> Categories d = ["Homework"; "Exams"; "Participation"] /\
    forall r,
      getCategoriesForClass {| Store := d |} r
      = OK (map_Categories "categories" [c1; c2; c3]) /\
      StatusCode (getCategoriesForClass {| Store := d |} r) = 200.
Proof.
  split; [reflexivity|].
  exists served, (mk_Category (uuid_source 1814) "Homework" 20),
    (mk_Category (uuid_source 1815) "Exams" 50),
    (mk_Category (uuid_source 1816) "Participation" 30).
  split; [apply NewDataStore_generated|].
  rewrite generated_Categories. repeat split.
Qed.

(** C7. On the generated store [/enrollments] answers 200 with the
    empty collection, [/enrollments/{id}] answers 404 for every id, and
    [/gradingPeriods] answers 200 with the empty collection, every
    generated academic session being of type "term". *)
Theorem enrollments_and_grading_periods_empty :
  exists d, NewDataStore uuid_source clock = Some d /\
    (forall s, s ∈ AcademicSessions d -> AcademicSession_Type s = "term") /\
    forall r,
      getEnrollments {| Store := d |} r
      = OK (map_Enrollments "enrollments" []) /\
      getEnrollment {| Store := d |} r = NotFound "Enrollment not found" /\
      getGradingPeriods {| Store := d |} r
      = OK (map_AcademicSessions "academicSessions" []) /\
      StatusCode (getGradingPeriods {| Store := d |} r) = 200.
Proof.
  exists served. split; [apply NewDataStore_generated|]. split.
  - intros s Hs. rewrite generated_AcademicSessions in Hs.
    apply elem_of_fmap_seq in Hs as (k & _ & ->). reflexivity.
  - intros r. unfold getEnrollments, getEnrollment, getGradingPeriods.
    cbn [Store]. rewrite generated_Enrollments, generated_AcademicSessions.
    rewrite range_do_eqb_filter.
    rewrite filter_fmap_none by (intros k; discriminate).
    repeat split.
Qed.

(** C10. Every generated org has type "school"; so on the generated
    store [/schools] answers exactly as [/orgs] does, and for every id
    [/schools/{id}] succeeds exactly when [/orgs/{id}] does, with the
    same record. *)
Theorem schools_are_all_orgs :
  exists d, NewDataStore uuid_source clock = Some d /\
    (forall o, o ∈ Orgs d -> Org_Type o = "school") /\
    (forall r, getSchools {| Store := d |} r = getOrgs {| Store := d |} r) /\
    (forall r,
       (StatusCode (getSchool {| Store := d |} r) = StatusOK <->
        StatusCode (getOrg {| Store := d |} r) = StatusOK) /\
       (forall o,
          getSchool {| Store := d |} r = OK (map_Org "org" o) <->
          getOrg {| Store := d |} r = OK (map_Org "org" o))).
Proof.
  exists served. split; [apply NewDataStore_generated|].
  assert (forall o, o ∈ Orgs served -> Org_Type o = "school") as Hall.
  { intros o Ho. rewrite generated_Orgs in Ho.
    apply elem_of_fmap_seq in Ho as (k & _ & ->). reflexivity. }
  split; [exact Hall|]. split.
  - intros r. unfold getSchools, getOrgs. cbn [Store].
    rewrite range_do_eqb_filter, generated_Orgs.
    now rewrite filter_fmap_all by reflexivity.
  - intros r.
    destruct (getSchool_getOrg_agree {| Store := served |} r Hall)
      as [(o & -> & ->) | [-> ->]].
    + split; [done|]. intros o'. reflexivity.
    + split; [done|]. intros o'. split; discriminate.
Qed.

End Serving.

(** ** Identifiers and base fields *)

Section Identifiers.

Variable uuid_source : nat -> string.
Variable clock : nat -> Time.

Lemma NoDup_drawn (a n total : nat) :
  (a + n <= total)%nat -> collision_free uuid_source total ->
  NoDup (uuid_source <$> seq a n).
Proof.
  intros Hle Hfree. apply NoDup_fmap_2_strong; [|apply NoDup_seq].
  intros i j Hi Hj. apply elem_of_seq in Hi, Hj. apply Hfree; lia.
Qed.

(** The identifiers of a collection built by one loop are consecutive
    draws. *)
Lemma sourcedId_fmap_seq {A} `{Embeds A} (f : nat -> A) (a n : nat) :
  (forall k, sourcedId (f k) = uuid_source (a + k)) ->
  sourcedId <$> (f <$> seq 0 n) = uuid_source <$> seq a n.
Proof.
  intros Hid.
  replace (seq a n) with (Nat.add a <$> seq 0 n)
    by (rewrite fmap_add_seq; f_equal; lia).
  rewrite <- !list_fmap_compose.
  apply list_fmap_ext. intros _ k _. apply Hid.
Qed.

(** C8. Provided the 1817 identifiers drawn by the generator are
    pairwise distinct, the sourcedIds of each collection of the
    generated store are pairwise distinct. *)
Theorem sourcedId_unique :
  collision_free uuid_source 1817 ->
  exists d, NewDataStore uuid_source clock = Some d /\
    NoDup (sourcedId <$> Orgs d) /\
    NoDup (sourcedId <$> Users d) /\
    NoDup (sourcedId <$> Courses d) /\
    NoDup (sourcedId <$> Classes d) /\
    NoDup (sourcedId <$> Enrollments d) /\
    NoDup (sourcedId <$> AcademicSessions d) /\
    NoDup (sourcedId <$> Categories d).
Proof.
  intros Hfree.
  exists (generated uuid_source clock). split; [apply NewDataStore_generated|].
  rewrite generated_Orgs, generated_Users, generated_Courses,
    generated_Classes, generated_Enrollments, generated_AcademicSessions,
    generated_Categories.
  rewrite fmap_app.
  rewrite (sourcedId_fmap_seq (org_at uuid_source clock) 0) by reflexivity.
  rewrite (sourcedId_fmap_seq (student_at uuid_source clock) 10) by reflexivity.
  rewrite (sourcedId_fmap_seq (teacher_at uuid_source clock) 1010)
    by reflexivity.
  rewrite (sourcedId_fmap_seq (course_at uuid_source clock) 1264)
    by reflexivity.
  rewrite (sourcedId_fmap_seq (class_at uuid_source clock) 1314) by reflexivity.
  rewrite (sourcedId_fmap_seq (term_at uuid_source clock) 1260) by reflexivity.
  rewrite <- fmap_app.
  replace (seq 10 1000 ++ seq 1010 250) with (seq 10 1250)
    by exact (seq_app 1000 250 10).
  change (sourcedId <$> the_categories uuid_source)
    with (uuid_source <$> seq 1814 3).
  repeat match goal with |- _ /\ _ => split end;
    try (apply (NoDup_drawn _ _ 1817); [lia | exact Hfree]).
  apply NoDup_nil_2.
Qed.

(** C9, as the code has it. The three categories are built from
    [BaseModel{SourcedId: ...}] alone: their status is the empty string
    and their dateLastModified is the zero instant, whatever the
    clock. *)
Theorem categories_base_fields_unset :
  exists d, NewDataStore uuid_source clock = Some d /\
    length (Categories d) = 3%nat /\
    forall c, c ∈ Categories d ->
      status c = "" /\ dateLastModified c = zeroTime.
Proof.
  exists (generated uuid_source clock). split; [apply NewDataStore_generated|].
  rewrite generated_Categories. split; [reflexivity|].
  intros c Hc. unfold the_categories in Hc.
  repeat (apply elem_of_cons in Hc as [->|Hc]; [now split|]).
  inversion Hc.
Qed.

(** The records of the five collections built by the loops are all
    stamped: only the category literals leave status and
    dateLastModified out. *)
Theorem loop_records_stamped :
  exists d, NewDataStore uuid_source clock = Some d /\
    (forall o, o ∈ Orgs d -> stamped uuid_source clock o) /\
    (forall u, u ∈ Users d -> stamped uuid_source clock u) /\
    (forall s, s ∈ AcademicSessions d -> stamped uuid_source clock s) /\
    (forall c, c ∈ Courses d -> stamped uuid_source clock c) /\
    (forall c, c ∈ Classes d -> stamped uuid_source clock c).
Proof.
  exists (generated uuid_source clock). split; [apply NewDataStore_generated|].
  rewrite generated_Orgs, generated_Users, generated_Courses,
    generated_Classes, generated_AcademicSessions.
  repeat match goal with |- _ /\ _ => split end; intros x Hx;
    try apply elem_of_app in Hx as [Hx|Hx];
    apply elem_of_fmap_seq in Hx as (k & _ & ->);
    (split; [reflexivity | eexists; split; reflexivity]).
Qed.

End Identifiers.

(** Decimal numerals never collide. *)
Lemma numeral_source_collision_free (n : nat) :
  collision_free numeral_source n.
Proof. intros i j _ _ Heq. exact (inj pretty i j Heq). Qed.

(** The uniqueness theorem at the numeral source: its hypothesis holds
    there, so the store generated from it has no duplicate sourcedId. *)
Lemma sourcedId_unique_witness :
  collision_free numeral_source 1817 /\
  exists d, NewDataStore numeral_source counting_clock = Some d /\
    NoDup (sourcedId <$> Orgs d) /\
    NoDup (sourcedId <$> Users d) /\
    NoDup (sourcedId <$> Courses d) /\
    NoDup (sourcedId <$> Classes d) /\
    NoDup (sourcedId <$> Enrollments d) /\
    NoDup (sourcedId <$> AcademicSessions d) /\
    NoDup (sourcedId <$> Categories d).
Proof.
  split.
  - apply numeral_source_collision_free.
  - apply (sourcedId_unique numeral_source counting_clock).
    apply numeral_source_collision_free.
Defined.

(** * The model at work *)

Example fmt_verbs :
  fmt_d 42 = "42" /\ fmt_0d 3 7 = "007" /\ fmt_0d 4 250 = "0250" /\
  fmt_0d 3 1000 = "1000" /\ fmt_0d 3 (-1) = "-01".
Proof. repeat split. Qed.

Example demo_store_generated :
  NewDataStore numeral_source counting_clock = Some demo_store.
Proof. apply NewDataStore_generated. Qed.

Example demo_last_org :
  Orgs demo_store !! 9%nat
  = Some {| Org_BaseModel := active_BaseModel "9" 10;
            Org_Name := "School #10"; Org_Type := "school";
            Org_Identifier := "SCH010"; Org_Parent := None;
            Org_Children := [] |}.
Proof. vm_compute. reflexivity. Qed.

(** The sixth teacher is the 1006th user; it belongs to the org at
    position 6. *)
Example demo_sixth_teacher :
  Users demo_store !! 1005%nat
  = Some {| User_BaseModel := active_BaseModel "1015" 1016;
            User_Username := "teacher6"; User_UserIds := [];
            User_EnabledUser := true; User_GivenName := "Teacher";
            User_FamilyName := "User6"; User_Role := "teacher";
            User_Identifier := "TCH0006";
            User_Email := "teacher6@example.com";
            User_Orgs := [ref_to "/orgs/" "org" "6"] |}.
Proof. vm_compute. reflexivity. Qed.

(** The tenth student wraps around to the org at position 0. *)
Example demo_tenth_student :
  User_Orgs <$> Users demo_store !! 9%nat
  = Some [ref_to "/orgs/" "org" "0"].
Proof. vm_compute. reflexivity. Qed.

Example demo_class_500 :
  (fun c => (Class_ClassCode c, Class_Course c, Class_School c, Class_Terms c))
    <$> Classes demo_store !! 499%nat
  = Some ("CRS001-S500", ref_to "/courses/" "course" "1264",
          ref_to "/schools/" "school" "0", [ref_to "/terms/" "term" "1260"]).
Proof. vm_compute. reflexivity. Qed.

Example demo_getTeacher_found :
  getTeacher demo (request_for "1015")
  = OK (map_User "user" (teacher_at numeral_source counting_clock 5)).
Proof. vm_compute. reflexivity. Qed.

(** The id of a student is not found among the teachers. *)
Example demo_getTeacher_student :
  getUser demo (request_for "15")
  = OK (map_User "user" (student_at numeral_source counting_clock 5)) /\
  getTeacher demo (request_for "15") = NotFound "Teacher not found".
Proof. split; vm_compute; reflexivity. Qed.

Example demo_unbound_id :
  getOrg demo {| URLParams := [] |} = NotFound "Org not found".
Proof. vm_compute. reflexivity. Qed.

Example demo_categories :
  getCategoriesForClass demo (request_for "no-such-class")
  = OK (map_Categories "categories"
          [ mk_Category "1814" "Homework" 20; mk_Category "1815" "Exams" 50;
            mk_Category "1816" "Participation" 30 ]).
Proof. vm_compute. reflexivity. Qed.

(** The lookup contract at the demo server, for the id "1015" of the
    sixth teacher: [/teachers/1015] finds that teacher (first clause,
    its premises discharged on the store), and [/courses/1015] answers
    404 since no course has this id (second clause). *)
Lemma get_by_id_contract_witness :
  (exists u, getTeacher demo (request_for "1015") = OK (map_User "user" u) /\
             sourcedId u = "1015" /\ User_Role u = "teacher") /\
  getCourse demo (request_for "1015") = NotFound "Course not found".
Proof.
  pose proof (get_by_id_contract demo (request_for "1015"))
    as (_ & _ & _ & [Hteacher _] & _ & [_ Hcourse] & _).
  split.
  - destruct (Hteacher (teacher_at numeral_source counting_clock 5))
      as (pre & y & post & _ & _ & Hid & Hrole & Hresp).
    + change (Users (Store demo)) with (Users demo_store).
      unfold demo_store. rewrite generated_Users.
      apply elem_of_app. right. apply elem_of_fmap_seq.
      exists 5%nat. split; [lia | reflexivity].
    + vm_compute. reflexivity.
    + reflexivity.
    + exists y. auto.
  - apply Hcourse. apply Forall_forall.
    apply (bool_decide_eq_true_1 _). vm_compute. reflexivity.
Defined.

(** * Further properties of the handlers *)

(** In a collection without duplicate sourcedIds, two records with the
    same sourcedId are the same record. *)
Lemma NoDup_sourcedId_eq {A} `{Embeds A} (coll : list A) (x y : A) :
  NoDup (sourcedId <$> coll) -> x ∈ coll -> y ∈ coll ->
  sourcedId x = sourcedId y -> x = y.
Proof.
  induction coll as [|z coll IH]; intros Hnd Hx Hy Hid; [inversion Hx|].
  rewrite fmap_cons in Hnd. apply NoDup_cons in Hnd as [Hz Hnd].
  apply elem_of_cons in Hx as [->|Hx]; apply elem_of_cons in Hy as [->|Hy].
  - reflexivity.
  - exfalso. apply Hz. rewrite Hid. now apply list_elem_of_fmap_2.
  - exfalso. apply Hz. rewrite <- Hid. now apply list_elem_of_fmap_2.
  - now apply IH.
Qed.

(** With unique sourcedIds the loop answers with the very record that
    carries the id when it passes the test, and with the code after the
    loop when it does not. *)
Lemma range_return_unique {A} `{Embeds A} (coll : list A) (P : A -> Prop)
    (test : A -> bool) (id : string) (found : A -> Response)
    (not_found : Response) (x : A) :
  (forall y, test y = true <-> sourcedId y = id /\ P y) ->
  NoDup (sourcedId <$> coll) -> x ∈ coll -> sourcedId x = id ->
  let resp :=
    range_return coll (fun y => if test y then Some (found y) else None)
      not_found in
  (P x -> resp = found x) /\ (~ P x -> resp = not_found).
Proof.
  intros Htest Hnd Hx Hid resp.
  destruct (range_return_first test found not_found coll)
    as [(pre & y & post & Hsplit & _ & Hy & Hresp) | [Hnone Hresp]];
    fold resp in Hresp.
  - apply Htest in Hy as [Hyid HP].
    assert (y = x) as ->.
    { apply (NoDup_sourcedId_eq coll); [done| |done|congruence].
      rewrite Hsplit. apply elem_of_app. right. apply elem_of_cons. now left. }
    split; [done|]. intros HnP. now destruct HnP.
  - split; [|done].
    intros HP. assert (test x = true) as Ht by now apply Htest.
    rewrite (Hnone x Hx) in Ht. discriminate.
Qed.

Ltac unique_by_id id wrap x :=
  apply (range_return_unique _ (fun _ => True)
           (fun y => String.eqb (sourcedId y) id) id
           (fun y => OK (wrap y)) _ x);
  auto using eqb_id_test.

Ltac unique_by_id_and id field value wrap x :=
  apply (range_return_unique _ (fun y => field y = value)
           (fun y => String.eqb (sourcedId y) id && String.eqb (field y) value)
           id (fun y => OK (wrap y)) _ x);
  auto using eqb_id_and_test.

(** Round trip. In a store without duplicate sourcedIds, asking for the
    sourcedId of a stored record returns that very record: from the
    unfiltered handler always, and from a handler fixed to a role or a
    type exactly when the record has this role or type (its own 404
    otherwise). *)
Theorem get_by_id_round_trip (h : APIHandlers) (r : Request) :
  unique_ids (Store h) ->
  let id := URLParam r "id" in
  let d := Store h in
  (forall o, o ∈ Orgs d -> sourcedId o = id ->
     getOrg h r = OK (map_Org "org" o) /\
     (Org_Type o = "school" -> getSchool h r = OK (map_Org "org" o)) /\
     (Org_Type o <> "school" -> getSchool h r = NotFound "School not found"))
  /\ (forall u, u ∈ Users d -> sourcedId u = id ->
     getUser h r = OK (map_User "user" u) /\
     (User_Role u = "teacher" -> getTeacher h r = OK (map_User "user" u)) /\
     (User_Role u <> "teacher" ->
        getTeacher h r = NotFound "Teacher not found") /\
     (User_Role u = "student" -> getStudent h r = OK (map_User "user" u)) /\
     (User_Role u <> "student" ->
        getStudent h r = NotFound "Student not found"))
  /\ (forall c, c ∈ Courses d -> sourcedId c = id ->
     getCourse h r = OK (map_Course "course" c))
  /\ (forall c, c ∈ Classes d -> sourcedId c = id ->
     getClass h r = OK (map_Class "class" c))
  /\ (forall e, e ∈ Enrollments d -> sourcedId e = id ->
     getEnrollment h r = OK (map_Enrollment "enrollment" e))
  /\ (forall s, s ∈ AcademicSessions d -> sourcedId s = id ->
     getAcademicSession h r = OK (map_AcademicSession "academicSession" s) /\
     (AcademicSession_Type s = "term" ->
        getTerm h r = OK (map_AcademicSession "academicSession" s)) /\
     (AcademicSession_Type s <> "term" ->
        getTerm h r = NotFound "Term not found") /\
     (AcademicSession_Type s = "gradingPeriod" ->
        getGradingPeriod h r
        = OK (map_AcademicSession "academicSession" s)) /\
     (AcademicSession_Type s <> "gradingPeriod" ->
        getGradingPeriod h r = NotFound "Grading Period not found")).
Proof.
  intros (Horgs & Husers & Hcourses & Hclasses & Henr & Hsess) id d.
  repeat match goal with |- _ /\ _ => split end; intros x Hx Hid.
  - repeat match goal with |- _ /\ _ => split end;
      [ unique_by_id id (map_Org "org") x
      | unique_by_id_and id Org_Type "school" (map_Org "org") x .. ].
  - repeat match goal with |- _ /\ _ => split end;
      [ unique_by_id id (map_User "user") x
      | unique_by_id_and id User_Role "teacher" (map_User "user") x
      | unique_by_id_and id User_Role "teacher" (map_User "user") x
      | unique_by_id_and id User_Role "student" (map_User "user") x
      | unique_by_id_and id User_Role "student" (map_User "user") x ].
  - unique_by_id id (map_Course "course") x.
  - unique_by_id id (map_Class "class") x.
  - unique_by_id id (map_Enrollment "enrollment") x.
  - pose (wrap := map_AcademicSession "academicSession").
    repeat match goal with |- _ /\ _ => split end;
      [ unique_by_id id wrap x
      | unique_by_id_and id AcademicSession_Type "term" wrap x
      | unique_by_id_and id AcademicSession_Type "term" wrap x
      | unique_by_id_and id AcademicSession_Type "gradingPeriod" wrap x
      | unique_by_id_and id AcademicSession_Type "gradingPeriod" wrap x ].
Qed.

(** A get-by-id loop answers with a 200 built from an element that
    passes its test, or with its 404. *)
Lemma range_return_cases {A} (test : A -> bool) (wrap : A -> JSONData)
    (msg : string) (coll : list A) :
  let resp :=
    range_return coll (fun y => if test y then Some (OK (wrap y)) else None)
      (NotFound msg) in
  (exists y, y ∈ coll /\ test y = true /\ resp = OK (wrap y))
  \/ ((forall z, z ∈ coll -> test z = false) /\ resp = NotFound msg).
Proof.
  intros resp.
  destruct (range_return_first test (fun y => OK (wrap y)) (NotFound msg) coll)
    as [(pre & y & post & -> & _ & Hy & Hresp) | Hnone]; [left | now right].
  exists y. split; [|done].
  apply elem_of_app. right. apply elem_of_cons. now left.
Qed.

Lemma OK_not_NotFound (data : JSONData) (msg : string) :
  OK data <> NotFound msg.
Proof. discriminate. Qed.

(** Adding a role or type test to a lookup can only lose answers. *)
Lemma range_return_filtered {A} `{Embeds A} (id : string) (extra : A -> bool)
    (wrap : A -> JSONData) (msg msg' : string) (coll : list A) :
  (forall y z, wrap y = wrap z -> y = z) ->
  let filtered :=
    range_return coll
      (fun y => if String.eqb (sourcedId y) id && extra y
                then Some (OK (wrap y)) else None)
      (NotFound msg) in
  let unfiltered :=
    range_return coll
      (fun y => if String.eqb (sourcedId y) id then Some (OK (wrap y))
                else None)
      (NotFound msg') in
  (forall x, filtered = OK (wrap x) ->
     exists x', unfiltered = OK (wrap x') /\ sourcedId x' = sourcedId x)
  /\ (unfiltered = NotFound msg' -> filtered = NotFound msg).
Proof.
  intros Hinj filtered unfiltered.
  destruct (range_return_cases
              (fun y => String.eqb (sourcedId y) id && extra y) wrap msg coll)
    as [(y & Hy & Hty & Hf) | [Hnone Hf]]; fold filtered in Hf;
  destruct (range_return_cases
              (fun y => String.eqb (sourcedId y) id) wrap msg' coll)
    as [(y' & Hy' & Hty' & Hu) | [Hnone' Hu]]; fold unfiltered in Hu;
  rewrite Hf, Hu.
  - split; [|intros Habs; now apply OK_not_NotFound in Habs].
    intros x Hx. injection Hx as Hx. apply Hinj in Hx as <-.
    exists y'. split; [done|].
    apply andb_true_iff in Hty as [Hty _].
    apply String.eqb_eq in Hty, Hty'. congruence.
  - exfalso. apply andb_true_iff in Hty as [Hty _].
    rewrite (Hnone' y Hy) in Hty. discriminate.
  - split; [|done]. intros x Habs. symmetry in Habs.
    now apply OK_not_NotFound in Habs.
  - split; [|done]. intros x Habs. symmetry in Habs.
    now apply OK_not_NotFound in Habs.
Qed.

(** A handler fixed to a role or a type finds a record only if the
    handler of the whole collection finds one with the same sourcedId;
    when the latter answers 404, so does the former. This holds for
    every store, duplicate sourcedIds included. *)
Theorem filtered_lookup_implies_unfiltered (h : APIHandlers) (r : Request) :
  ((forall o, getSchool h r = OK (map_Org "org" o) ->
      exists o', getOrg h r = OK (map_Org "org" o') /\
                 sourcedId o' = sourcedId o) /\
   (getOrg h r = NotFound "Org not found" ->
      getSchool h r = NotFound "School not found"))
  /\ ((forall u, getTeacher h r = OK (map_User "user" u) ->
         exists u', getUser h r = OK (map_User "user" u') /\
                    sourcedId u' = sourcedId u) /\
      (getUser h r = NotFound "User not found" ->
         getTeacher h r = NotFound "Teacher not found"))
  /\ ((forall u, getStudent h r = OK (map_User "user" u) ->
         exists u', getUser h r = OK (map_User "user" u') /\
                    sourcedId u' = sourcedId u) /\
      (getUser h r = NotFound "User not found" ->
         getStudent h r = NotFound "Student not found"))
  /\ ((forall s, getTerm h r = OK (map_AcademicSession "academicSession" s) ->
         exists s',
           getAcademicSession h r
           = OK (map_AcademicSession "academicSession" s') /\
           sourcedId s' = sourcedId s) /\
      (getAcademicSession h r = NotFound "Academic Session not found" ->
         getTerm h r = NotFound "Term not found"))
  /\ ((forall s,
         getGradingPeriod h r
         = OK (map_AcademicSession "academicSession" s) ->
         exists s',
           getAcademicSession h r
           = OK (map_AcademicSession "academicSession" s') /\
           sourcedId s' = sourcedId s) /\
      (getAcademicSession h r = NotFound "Academic Session not found" ->
         getGradingPeriod h r = NotFound "Grading Period not found")).
Proof.
  repeat match goal with |- (_ /\ _) /\ _ => split end.
  - apply (range_return_filtered _
             (fun y => String.eqb (Org_Type y) "school") (map_Org "org")).
    congruence.
  - apply (range_return_filtered _
             (fun y => String.eqb (User_Role y) "teacher") (map_User "user")).
    congruence.
  - apply (range_return_filtered _
             (fun y => String.eqb (User_Role y) "student") (map_User "user")).
    congruence.
  - apply (range_return_filtered _
             (fun y => String.eqb (AcademicSession_Type y) "term")
             (map_AcademicSession "academicSession")).
    congruence.
  - apply (range_return_filtered _
             (fun y => String.eqb (AcademicSession_Type y) "gradingPeriod")
             (map_AcademicSession "academicSession")).
    congruence.
Qed.

Lemma range_return_json {A} (test : A -> bool) (wrap : A -> JSONData)
    (msg : string) (coll : list A) :
  json_ok_or_not_found
    (range_return coll (fun y => if test y then Some (OK (wrap y)) else None)
       (NotFound msg)).
Proof.
  destruct (range_return_cases test wrap msg coll)
    as [(y & _ & _ & ->) | [_ ->]].
  - split; [done | now left].
  - split; [done | right; now exists msg].
Qed.

(** Every list handler answers 200 with a JSON body, whatever the store
    holds (an empty result is not an error); every get-by-id handler
    answers with a JSON body that is a 200 or the 404 error map, and
    nothing else. *)
Theorem handler_status_codes (h : APIHandlers) (r : Request) :
  Forall json_ok
    [ getOrgs h r; getSchools h r; getUsers h r; getTeachers h r;
      getStudents h r; getCourses h r; getClasses h r;
      getCategoriesForClass h r; getEnrollments h r; getTerms h r;
      getAcademicSessions h r; getGradingPeriods h r ]
  /\ Forall json_ok_or_not_found
    [ getOrg h r; getSchool h r; getUser h r; getTeacher h r;
      getStudent h r; getCourse h r; getClass h r; getEnrollment h r;
      getTerm h r; getAcademicSession h r; getGradingPeriod h r ].
Proof.
  split.
  - repeat constructor.
  - repeat first [ apply Forall_nil_2 | apply Forall_cons_2 ];
      first
        [ apply (range_return_json (fun y => String.eqb (sourcedId y) _))
        | apply (range_return_json
                   (fun y => String.eqb (sourcedId y) _ && String.eqb _ _)) ].
Qed.

(** * Further properties of the generator *)

Section Draws.

Variable uuid_source : nat -> string.
Variable clock : nat -> Time.

Abbreviation gen := (generated uuid_source clock).

Lemma stamp_fmap_seq {A} `{Embeds A} (f : nat -> A) (a n : nat) :
  (forall k, dateLastModified (f k) = clock (a + k)) ->
  dateLastModified <$> (f <$> seq 0 n) = clock <$> seq a n.
Proof.
  intros Hid.
  replace (seq a n) with (Nat.add a <$> seq 0 n)
    by (rewrite fmap_add_seq; f_equal; lia).
  rewrite <- !list_fmap_compose.
  apply list_fmap_ext. intros _ k _. apply Hid.
Qed.

Lemma generated_all_sourcedIds :
  all_sourcedIds gen = uuid_source <$> seq 0 1817.
Proof.
  unfold all_sourcedIds.
  rewrite generated_Orgs, generated_Users, generated_Courses,
    generated_Classes, generated_AcademicSessions, generated_Categories.
  rewrite fmap_app.
  rewrite (sourcedId_fmap_seq uuid_source (org_at uuid_source clock) 0),
    (sourcedId_fmap_seq uuid_source (student_at uuid_source clock) 10),
    (sourcedId_fmap_seq uuid_source (teacher_at uuid_source clock) 1010),
    (sourcedId_fmap_seq uuid_source (term_at uuid_source clock) 1260),
    (sourcedId_fmap_seq uuid_source (course_at uuid_source clock) 1264),
    (sourcedId_fmap_seq uuid_source (class_at uuid_source clock) 1314)
    by reflexivity.
  change (sourcedId <$> the_categories uuid_source)
    with (uuid_source <$> seq 1814 3).
  rewrite <- !fmap_app. f_equal; vm_compute; reflexivity.
Qed.

Lemma generated_all_stamps : all_stamps gen = clock <$> seq 0 1814.
Proof.
  unfold all_stamps.
  rewrite generated_Orgs, generated_Users, generated_Courses,
    generated_Classes, generated_AcademicSessions.
  rewrite fmap_app.
  rewrite (stamp_fmap_seq (org_at uuid_source clock) 0),
    (stamp_fmap_seq (student_at uuid_source clock) 10),
    (stamp_fmap_seq (teacher_at uuid_source clock) 1010),
    (stamp_fmap_seq (term_at uuid_source clock) 1260),
    (stamp_fmap_seq (course_at uuid_source clock) 1264),
    (stamp_fmap_seq (class_at uuid_source clock) 1314)
    by reflexivity.
  rewrite <- !fmap_app. f_equal; vm_compute; reflexivity.
Qed.

(** The generator never panics; it calls [uuid.New] exactly 1817 times
    and [time.Now] exactly 1814 times. Read collection after
    collection in generation order, the sourcedIds of the store are
    the identifiers drawn, in the order they were drawn, each used
    once; likewise the dateLastModified of the records built by the
    loops are the successive readings of the clock. *)
Theorem draws_in_generation_order :
  exists s, populate uuid_source clock initial_state = Some (tt, s) /\
    NewDataStore uuid_source clock = Some (ds s) /\
    drawn s = 1817%nat /\ ticks s = 1814%nat /\
    all_sourcedIds (ds s) = uuid_source <$> seq 0 1817 /\
    all_stamps (ds s) = clock <$> seq 0 1814.
Proof.
  exists {| ds := gen; drawn := 1817; ticks := 1814 |}.
  split; [apply populate_generated|].
  split; [apply NewDataStore_generated|].
  cbn [ds drawn ticks].
  auto using generated_all_sourcedIds, generated_all_stamps.
Qed.

Lemma generated_unique_ids :
  collision_free uuid_source 1817 -> unique_ids gen.
Proof.
  intros Hfree.
  assert (NoDup (all_sourcedIds gen)) as Hnd.
  { rewrite generated_all_sourcedIds. now apply (NoDup_drawn _ _ _ 1817). }
  unfold all_sourcedIds in Hnd. unfold unique_ids.
  rewrite generated_Enrollments.
  repeat match type of Hnd with
         | NoDup (_ ++ _) => apply NoDup_app in Hnd as (? & _ & Hnd)
         end.
  repeat split; try done. apply NoDup_nil_2.
Qed.

(** Provided the 1817 identifiers drawn are pairwise distinct, no
    sourcedId occurs twice in the whole generated store: not within a
    collection, and not in two different collections either. *)
Theorem sourcedId_unique_across_store :
  collision_free uuid_source 1817 ->
  exists d, NewDataStore uuid_source clock = Some d /\
    NoDup (all_sourcedIds d).
Proof.
  intros Hfree. exists gen. split; [apply NewDataStore_generated|].
  rewrite generated_all_sourcedIds. now apply (NoDup_drawn _ _ _ 1817).
Qed.

End Draws.

(** The store-wide uniqueness theorem at the numeral source. *)
Lemma sourcedId_unique_across_store_witness :
  collision_free numeral_source 1817 /\
  exists d, NewDataStore numeral_source counting_clock = Some d /\
    NoDup (all_sourcedIds d).
Proof.
  split.
  - apply numeral_source_collision_free.
  - apply (sourcedId_unique_across_store numeral_source counting_clock).
    apply numeral_source_collision_free.
Defined.

Lemma demo_unique_ids : unique_ids (Store demo).
Proof.
  apply generated_unique_ids, numeral_source_collision_free.
Qed.

(** The round trip at the demo server, for the id of the sixth
    teacher. *)
Lemma get_by_id_round_trip_witness :
  unique_ids (Store demo) /\
  getUser demo (request_for "1015")
  = OK (map_User "user" (teacher_at numeral_source counting_clock 5)) /\
  getTeacher demo (request_for "1015")
  = OK (map_User "user" (teacher_at numeral_source counting_clock 5)) /\
  getStudent demo (request_for "1015") = NotFound "Student not found".
Proof.
  split; [apply demo_unique_ids|].
  pose proof (get_by_id_round_trip demo (request_for "1015") demo_unique_ids)
    as (_ & Husers & _).
  destruct (Husers (teacher_at numeral_source counting_clock 5))
    as (Huser & Hteacher & _ & _ & Hstudent).
  - change (Users (Store demo)) with (Users demo_store).
    unfold demo_store. rewrite generated_Users.
    apply elem_of_app. right. apply elem_of_fmap_seq.
    exists 5%nat. split; [lia | reflexivity].
  - vm_compute. reflexivity.
  - split; [exact Huser|]. split; [now apply Hteacher|].
    apply Hstudent. discriminate.
Defined.

(** * Further properties of the handlers over the generated store *)

(** A get-by-id loop answers 200 exactly when some element passes its
    test. *)
Lemma range_return_found_iff {A} (test : A -> bool) (wrap : A -> JSONData)
    (msg : string) (coll : list A) :
  StatusCode
    (range_return coll (fun y => if test y then Some (OK (wrap y)) else None)
       (NotFound msg)) = StatusOK
  <-> exists y, y ∈ coll /\ test y = true.
Proof.
  destruct (range_return_cases test wrap msg coll)
    as [(y & Hy & Hty & ->) | [Hnone ->]].
  - split; [intros _; now exists y | done].
  - split; [discriminate|].
    intros (y & Hy & Hty). rewrite (Hnone y Hy) in Hty. discriminate.
Qed.

(** When every academic session is a term, [/terms/{id}] and
    [/academicSessions/{id}] find the same record, or both answer
    404. *)
Lemma getTerm_getAcademicSession_agree (h : APIHandlers) (r : Request) :
  (forall s, s ∈ AcademicSessions (Store h) ->
             AcademicSession_Type s = "term") ->
  (exists s,
      getTerm h r = OK (map_AcademicSession "academicSession" s) /\
      getAcademicSession h r = OK (map_AcademicSession "academicSession" s))
  \/ (getTerm h r = NotFound "Term not found" /\
      getAcademicSession h r = NotFound "Academic Session not found").
Proof.
  unfold getTerm, getAcademicSession. cbv zeta.
  induction (AcademicSessions (Store h)) as [|x s IH]; intros Hall;
    cbn [range_return].
  - now right.
  - rewrite (Hall x) by (apply elem_of_cons; now left).
    rewrite String.eqb_refl, andb_true_r.
    destruct (String.eqb (sourcedId x) (URLParam r "id")).
    + left. now exists x.
    + apply IH. intros o Ho. apply Hall, elem_of_cons. now right.
Qed.

Section StoreShape.

Variable uuid_source : nat -> string.
Variable clock : nat -> Time.

Abbreviation gen := (generated uuid_source clock).
Abbreviation org_k := (org_at uuid_source clock).
Abbreviation student_k := (student_at uuid_source clock).
Abbreviation teacher_k := (teacher_at uuid_source clock).
Abbreviation term_k := (term_at uuid_source clock).
Abbreviation course_k := (course_at uuid_source clock).
Abbreviation class_k := (class_at uuid_source clock).

Lemma generated_roles (u : User) :
  u ∈ Users gen -> User_Role u = "student" \/ User_Role u = "teacher".
Proof.
  rewrite generated_Users. intros Hu.
  apply elem_of_app in Hu as [Hu|Hu];
    apply elem_of_fmap_seq in Hu as (k & _ & ->); [now left | now right].
Qed.

(** The generated users are the students followed by the teachers and
    nobody else: the [/students] list followed by the [/teachers] list
    is the [/users] list, and [/users/{id}] succeeds exactly when
    [/students/{id}] or [/teachers/{id}] does. *)
Theorem users_are_students_then_teachers :
  exists d, NewDataStore uuid_source clock = Some d /\
    role_group d "student" ++ role_group d "teacher" = Users d /\
    forall r,
      StatusCode (getUser {| Store := d |} r) = StatusOK <->
      StatusCode (getStudent {| Store := d |} r) = StatusOK \/
      StatusCode (getTeacher {| Store := d |} r) = StatusOK.
Proof.
  exists gen. split; [apply NewDataStore_generated|]. split.
  - now rewrite generated_students, generated_teachers, generated_Users.
  - intros r.
    pose proof (range_return_found_iff
                  (fun y => String.eqb (sourcedId y) (URLParam r "id"))
                  (map_User "user") "User not found" (Users gen)) as Hu.
    pose proof (range_return_found_iff
                  (fun y => String.eqb (sourcedId y) (URLParam r "id")
                            && String.eqb (User_Role y) "student")
                  (map_User "user") "Student not found" (Users gen)) as Hs.
    pose proof (range_return_found_iff
                  (fun y => String.eqb (sourcedId y) (URLParam r "id")
                            && String.eqb (User_Role y) "teacher")
                  (map_User "user") "Teacher not found" (Users gen)) as Ht.
    cbv beta in Hu, Hs, Ht.
    unfold getUser, getStudent, getTeacher. cbv zeta. cbn [Store].
    rewrite Hu, Hs, Ht. clear Hu Hs Ht.
    split.
    + intros (u & Hu & Hid).
      destruct (generated_roles u Hu) as [Hrole|Hrole]; [left|right];
        exists u; (split; [done|]); now rewrite Hid, Hrole.
    + intros [(u & Hu & Ht)|(u & Hu & Ht)];
        apply andb_true_iff in Ht as [Ht _]; exists u; split; assumption.
Qed.

(** Every generated academic session is a term: [/terms] answers as
    [/academicSessions] does, [/terms/{id}] finds a record exactly when
    [/academicSessions/{id}] finds it, and [/gradingPeriods/{id}]
    answers 404 for every id. *)
Theorem terms_are_all_sessions :
  exists d, NewDataStore uuid_source clock = Some d /\
    forall r,
      getTerms {| Store := d |} r = getAcademicSessions {| Store := d |} r /\
      (forall s,
         getTerm {| Store := d |} r
         = OK (map_AcademicSession "academicSession" s) <->
         getAcademicSession {| Store := d |} r
         = OK (map_AcademicSession "academicSession" s)) /\
      getGradingPeriod {| Store := d |} r
      = NotFound "Grading Period not found".
Proof.
  exists gen. split; [apply NewDataStore_generated|].
  assert (forall s, s ∈ AcademicSessions gen ->
                    AcademicSession_Type s = "term") as Hall.
  { intros s Hs. rewrite generated_AcademicSessions in Hs.
    apply elem_of_fmap_seq in Hs as (k & _ & ->). reflexivity. }
  intros r. split; [|split].
  - unfold getTerms, getAcademicSessions. cbn [Store].
    rewrite range_do_eqb_filter, generated_AcademicSessions.
    now rewrite filter_fmap_all by reflexivity.
  - destruct (getTerm_getAcademicSession_agree {| Store := gen |} r Hall)
      as [(s & -> & ->) | [-> ->]]; intros s'; [reflexivity|].
    split; discriminate.
  - unfold getGradingPeriod. cbv zeta. cbn [Store].
    destruct (range_return_cases
                (fun y => String.eqb (sourcedId y) (URLParam r "id")
                          && String.eqb (AcademicSession_Type y)
                               "gradingPeriod")
                (map_AcademicSession "academicSession")
                "Grading Period not found" (AcademicSessions gen))
      as [(y & Hy & Hty & _) | [_ Hresp]]; [|exact Hresp].
    rewrite (Hall y Hy), andb_false_r in Hty. discriminate.
Qed.

(** Every reference stored in a generated record can be followed: its
    href is the route prefix of its handler followed by its sourcedId,
    and that handler answers 200 for this sourcedId with a record that
    carries it. *)
Theorem references_resolve :
  exists d, NewDataStore uuid_source clock = Some d /\
    (forall u ref r, u ∈ Users d -> ref ∈ User_Orgs u ->
       URLParam r "id" = GUIDRef_SourcedId ref ->
       GUIDRef_Href ref = "/orgs/" +:+ GUIDRef_SourcedId ref /\
       exists o, getOrg {| Store := d |} r = OK (map_Org "org" o) /\
                 sourcedId o = GUIDRef_SourcedId ref) /\
    (forall c r, c ∈ Classes d ->
       URLParam r "id" = GUIDRef_SourcedId (Class_Course c) ->
       GUIDRef_Href (Class_Course c)
       = "/courses/" +:+ GUIDRef_SourcedId (Class_Course c) /\
       exists course,
         getCourse {| Store := d |} r = OK (map_Course "course" course) /\
         sourcedId course = GUIDRef_SourcedId (Class_Course c)) /\
    (forall c r, c ∈ Classes d ->
       URLParam r "id" = GUIDRef_SourcedId (Class_School c) ->
       GUIDRef_Href (Class_School c)
       = "/schools/" +:+ GUIDRef_SourcedId (Class_School c) /\
       exists school,
         getSchool {| Store := d |} r = OK (map_Org "org" school) /\
         sourcedId school = GUIDRef_SourcedId (Class_School c)) /\
    (forall c ref r, c ∈ Classes d -> ref ∈ Class_Terms c ->
       URLParam r "id" = GUIDRef_SourcedId ref ->
       GUIDRef_Href ref = "/terms/" +:+ GUIDRef_SourcedId ref /\
       exists term,
         getTerm {| Store := d |} r
         = OK (map_AcademicSession "academicSession" term) /\
         sourcedId term = GUIDRef_SourcedId ref).
Proof.
  exists gen. split; [apply NewDataStore_generated|].
  assert (forall j, (j < 10)%nat -> org_k j ∈ Orgs gen) as Horg.
  { intros j Hj. rewrite generated_Orgs. apply elem_of_fmap_seq. now exists j. }
  assert (forall j, (j < 50)%nat -> course_k j ∈ Courses gen) as Hcourse.
  { intros j Hj. rewrite generated_Courses. apply elem_of_fmap_seq.
    now exists j. }
  assert (forall j, (j < 4)%nat -> term_k j ∈ AcademicSessions gen) as Hterm.
  { intros j Hj. rewrite generated_AcademicSessions. apply elem_of_fmap_seq.
    now exists j. }
  repeat match goal with |- _ /\ _ => split end.
  - intros u ref r Hu Href Hid. rewrite generated_Users in Hu.
    assert (exists k,
               ref = ref_to "/orgs/" "org" (sourcedId (org_k (S k mod 10))))
      as (k & ->).
    { apply elem_of_app in Hu as [Hu|Hu];
        apply elem_of_fmap_seq in Hu as (k & _ & ->);
        apply list_elem_of_singleton in Href as ->; now exists k. }
    split; [reflexivity|]. unfold getOrg. cbv zeta. cbn [Store]. rewrite Hid.
    destruct (range_return_cases
                (fun y => String.eqb (sourcedId y)
                            (sourcedId (org_k (S k mod 10))))
                (map_Org "org") "Org not found" (Orgs gen))
      as [(y & _ & Hty & Hresp) | [Hnone _]].
    + exists y. split; [exact Hresp|]. now apply String.eqb_eq in Hty.
    + specialize (Hnone (org_k (S k mod 10))
                    (Horg _ (Nat.mod_upper_bound _ 10 ltac:(lia)))).
      rewrite String.eqb_refl in Hnone. discriminate.
  - intros c r Hc Hid. rewrite generated_Classes in Hc.
    apply elem_of_fmap_seq in Hc as (k & _ & ->).
    split; [reflexivity|]. unfold getCourse. cbv zeta. cbn [Store]. rewrite Hid.
    destruct (range_return_cases
                (fun y => String.eqb (sourcedId y)
                            (sourcedId (course_k (S k mod 50))))
                (map_Course "course") "Course not found" (Courses gen))
      as [(y & _ & Hty & Hresp) | [Hnone _]].
    + exists y. split; [exact Hresp|]. now apply String.eqb_eq in Hty.
    + specialize (Hnone (course_k (S k mod 50))
                    (Hcourse _ (Nat.mod_upper_bound _ 50 ltac:(lia)))).
      rewrite String.eqb_refl in Hnone. discriminate.
  - intros c r Hc Hid. rewrite generated_Classes in Hc.
    apply elem_of_fmap_seq in Hc as (k & _ & ->).
    split; [reflexivity|]. unfold getSchool. cbv zeta. cbn [Store]. rewrite Hid.
    destruct (range_return_cases
                (fun y => String.eqb (sourcedId y)
                            (sourcedId (org_k (S k mod 10)))
                          && String.eqb (Org_Type y) "school")
                (map_Org "org") "School not found" (Orgs gen))
      as [(y & _ & Hty & Hresp) | [Hnone _]].
    + exists y. split; [exact Hresp|].
      apply andb_true_iff in Hty as [Hty _]. now apply String.eqb_eq in Hty.
    + specialize (Hnone (org_k (S k mod 10))
                    (Horg _ (Nat.mod_upper_bound _ 10 ltac:(lia)))).
      rewrite String.eqb_refl in Hnone. discriminate.
  - intros c ref r Hc Href Hid. rewrite generated_Classes in Hc.
    apply elem_of_fmap_seq in Hc as (k & _ & ->).
    apply list_elem_of_singleton in Href as ->.
    split; [reflexivity|]. unfold getTerm. cbv zeta. cbn [Store]. rewrite Hid.
    destruct (range_return_cases
                (fun y => String.eqb (sourcedId y)
                            (sourcedId (term_k (S k mod 4)))
                          && String.eqb (AcademicSession_Type y) "term")
                (map_AcademicSession "academicSession") "Term not found"
                (AcademicSessions gen))
      as [(y & _ & Hty & Hresp) | [Hnone _]].
    + exists y. split; [exact Hresp|].
      apply andb_true_iff in Hty as [Hty _]. now apply String.eqb_eq in Hty.
    + specialize (Hnone (term_k (S k mod 4))
                    (Hterm _ (Nat.mod_upper_bound _ 4 ltac:(lia)))).
      rewrite String.eqb_refl in Hnone. discriminate.
Qed.

End StoreShape.

(** * Further properties of the generated records *)

Lemma filter_fmap_comm {A B} (P : B -> Prop) `{forall y, Decision (P y)}
    (f : A -> B) (l : list A) :
  filter P (f <$> l) = f <$> filter (fun x => P (f x)) l.
Proof.
  induction l as [|x l IH]; [done|].
  rewrite fmap_cons, !filter_cons.
  destruct (decide (P (f x))); rewrite IH; reflexivity.
Qed.

(** Counting the elements of a mapped range that satisfy [P], when [P]
    on the [k]-th element says that [S k mod m] is [j]. *)
Lemma length_filter_round_robin {A} (P : A -> Prop)
    `{forall y, Decision (P y)} (f : nat -> A) (n m j : nat) :
  (forall k, P (f k) <-> (S k mod m)%nat = j) ->
  length (filter P (f <$> seq 0 n))
  = length (filter (fun k => (S k mod m)%nat = j) (seq 0 n)).
Proof.
  intros HP. rewrite filter_fmap_comm, length_fmap.
  f_equal. now apply list_filter_iff.
Qed.

Lemma residues_10_of_1000 (j : nat) :
  (j < 10)%nat ->
  length (filter (fun k => (S k mod 10)%nat = j) (seq 0 1000)) = 100%nat.
Proof.
  intros Hj. do 10 (destruct j as [|j]; [vm_compute; reflexivity|]). lia.
Qed.

Lemma residues_10_of_250 (j : nat) :
  (j < 10)%nat ->
  length (filter (fun k => (S k mod 10)%nat = j) (seq 0 250)) = 25%nat.
Proof.
  intros Hj. do 10 (destruct j as [|j]; [vm_compute; reflexivity|]). lia.
Qed.

Lemma residues_10_of_500 (j : nat) :
  (j < 10)%nat ->
  length (filter (fun k => (S k mod 10)%nat = j) (seq 0 500)) = 50%nat.
Proof.
  intros Hj. do 10 (destruct j as [|j]; [vm_compute; reflexivity|]). lia.
Qed.

Lemma residues_50_of_500 (j : nat) :
  (j < 50)%nat ->
  length (filter (fun k => (S k mod 50)%nat = j) (seq 0 500)) = 10%nat.
Proof.
  intros Hj. do 50 (destruct j as [|j]; [vm_compute; reflexivity|]). lia.
Qed.

Lemma residues_4_of_500 (j : nat) :
  (j < 4)%nat ->
  length (filter (fun k => (S k mod 4)%nat = j) (seq 0 500)) = 125%nat.
Proof.
  intros Hj. do 4 (destruct j as [|j]; [vm_compute; reflexivity|]). lia.
Qed.

Lemma string_app_cons (a : Ascii.ascii) (s t : string) :
  String a s +:+ t = String a (s +:+ t).
Proof. reflexivity. Qed.

Lemma string_length_app (s t : string) :
  String.length (s +:+ t) = (String.length s + String.length t)%nat.
Proof.
  induction s as [|a s IH]; [done|].
  rewrite string_app_cons. cbn [String.length]. now rewrite IH.
Qed.

Lemma string_app_inv_tail (s1 s2 t : string) :
  s1 +:+ t = s2 +:+ t -> s1 = s2.
Proof.
  revert s2. induction s1 as [|a s1 IH]; intros [|b s2] Heq; [done|..].
  - apply (f_equal String.length) in Heq.
    rewrite !string_length_app in Heq. cbn [String.length] in Heq. lia.
  - apply (f_equal String.length) in Heq.
    rewrite !string_length_app in Heq. cbn [String.length] in Heq. lia.
  - rewrite !string_app_cons in Heq. injection Heq as -> Heq.
    f_equal. now apply IH.
Qed.

Lemma fmt_d_succ_inj (k k' : nat) :
  fmt_d (1 + Z.of_nat k) = fmt_d (1 + Z.of_nat k') -> k = k'.
Proof. intros Heq. apply (inj pretty) in Heq. lia. Qed.

Section Distribution.

Variable uuid_source : nat -> string.
Variable clock : nat -> Time.

Abbreviation gen := (generated uuid_source clock).
Abbreviation org_k := (org_at uuid_source clock).
Abbreviation student_k := (student_at uuid_source clock).
Abbreviation teacher_k := (teacher_at uuid_source clock).
Abbreviation term_k := (term_at uuid_source clock).
Abbreviation course_k := (course_at uuid_source clock).
Abbreviation class_k := (class_at uuid_source clock).

(** The generated user names are pairwise distinct, and so are the
    e-mail addresses, whatever identifiers are drawn. *)
Theorem usernames_and_emails_unique :
  exists d, NewDataStore uuid_source clock = Some d /\
    NoDup (User_Username <$> Users d) /\
    NoDup (User_Email <$> Users d).
Proof.
  exists gen. split; [apply NewDataStore_generated|].
  rewrite generated_Users, !fmap_app, <- !list_fmap_compose.
  split; apply NoDup_app; repeat split.
  - apply NoDup_fmap_2_strong; [|apply NoDup_seq].
    intros k k' _ _ Heq. cbn in Heq.
    apply (inj (String.app "student")) in Heq. now apply fmt_d_succ_inj.
  - intros x Hs Ht. apply list_elem_of_fmap in Hs as (k & -> & _).
    apply list_elem_of_fmap in Ht as (k' & Heq & _). discriminate.
  - apply NoDup_fmap_2_strong; [|apply NoDup_seq].
    intros k k' _ _ Heq. cbn in Heq.
    apply (inj (String.app "teacher")) in Heq. now apply fmt_d_succ_inj.
  - apply NoDup_fmap_2_strong; [|apply NoDup_seq].
    intros k k' _ _ Heq. cbn in Heq.
    apply (inj (String.app "student")) in Heq.
    apply string_app_inv_tail in Heq. now apply fmt_d_succ_inj.
  - intros x Hs Ht. apply list_elem_of_fmap in Hs as (k & -> & _).
    apply list_elem_of_fmap in Ht as (k' & Heq & _). discriminate.
  - apply NoDup_fmap_2_strong; [|apply NoDup_seq].
    intros k k' _ _ Heq. cbn in Heq.
    apply (inj (String.app "teacher")) in Heq.
    apply string_app_inv_tail in Heq. now apply fmt_d_succ_inj.
Qed.

Hypothesis drawn_distinct : collision_free uuid_source 1817.

Lemma uuid_source_eq (i j : nat) :
  (i < 1817)%nat -> (j < 1817)%nat ->
  uuid_source i = uuid_source j <-> i = j.
Proof. intros Hi Hj. split; [now apply drawn_distinct | now intros ->]. Qed.

Lemma singleton_uuid_eq (i j : nat) :
  (i < 1817)%nat -> (j < 1817)%nat ->
  [uuid_source i] = [uuid_source j] <-> i = j.
Proof.
  intros Hi Hj. rewrite <- (uuid_source_eq i j) by done.
  split; [now intros [= ->] | now intros ->].
Qed.

(** Provided the identifiers drawn are pairwise distinct, the
    round-robin assignment is perfectly balanced: every org is the org
    of exactly 100 students and 25 teachers and the school of exactly
    50 classes, every course is the course of exactly 10 classes, and
    every academic session is the term of exactly 125 classes. *)
Theorem round_robin_is_balanced :
  exists d, NewDataStore uuid_source clock = Some d /\
    (forall o, o ∈ Orgs d ->
       length (org_members d "student" o) = 100%nat /\
       length (org_members d "teacher" o) = 25%nat /\
       length (classes_of_school d o) = 50%nat) /\
    (forall course, course ∈ Courses d ->
       length (classes_of_course d course) = 10%nat) /\
    (forall term, term ∈ AcademicSessions d ->
       length (classes_of_term d term) = 125%nat).
Proof.
  exists gen. split; [apply NewDataStore_generated|].
  unfold org_members, classes_of_school, classes_of_course, classes_of_term.
  rewrite generated_students, generated_teachers, generated_Classes,
    generated_Orgs, generated_Courses, generated_AcademicSessions.
  split; [|split].
  - intros o Ho. apply elem_of_fmap_seq in Ho as (j & Hj & ->).
    split; [|split].
    + rewrite (length_filter_round_robin _ student_k 1000 10 j).
      * now apply residues_10_of_1000.
      * intros k. cbn.
        pose proof (Nat.mod_upper_bound (S k) 10 ltac:(lia)).
        apply singleton_uuid_eq; lia.
    + rewrite (length_filter_round_robin _ teacher_k 250 10 j).
      * now apply residues_10_of_250.
      * intros k. cbn.
        pose proof (Nat.mod_upper_bound (S k) 10 ltac:(lia)).
        apply singleton_uuid_eq; lia.
    + rewrite (length_filter_round_robin _ class_k 500 10 j).
      * now apply residues_10_of_500.
      * intros k. cbn.
        pose proof (Nat.mod_upper_bound (S k) 10 ltac:(lia)).
        apply uuid_source_eq; lia.
  - intros o Ho. apply elem_of_fmap_seq in Ho as (j & Hj & ->).
    rewrite (length_filter_round_robin _ class_k 500 50 j).
    + now apply residues_50_of_500.
    + intros k.
      change (uuid_source (1264 + S k mod 50) = uuid_source (1264 + j)
              <-> (S k mod 50)%nat = j).
      pose proof (Nat.mod_upper_bound (S k) 50 ltac:(lia)).
      rewrite uuid_source_eq by lia. lia.
  - intros o Ho. apply elem_of_fmap_seq in Ho as (j & Hj & ->).
    rewrite (length_filter_round_robin _ class_k 500 4 j).
    + now apply residues_4_of_500.
    + intros k.
      change ([uuid_source (1260 + S k mod 4)] = [uuid_source (1260 + j)]
              <-> (S k mod 4)%nat = j).
      pose proof (Nat.mod_upper_bound (S k) 4 ltac:(lia)).
      rewrite singleton_uuid_eq by lia. lia.
Qed.

End Distribution.

(** The balance theorem at the numeral source. *)
Lemma round_robin_is_balanced_witness :
  collision_free numeral_source 1817 /\
  exists d, NewDataStore numeral_source counting_clock = Some d /\
    (forall o, o ∈ Orgs d ->
       length (org_members d "student" o) = 100%nat /\
       length (org_members d "teacher" o) = 25%nat /\
       length (classes_of_school d o) = 50%nat) /\
    (forall course, course ∈ Courses d ->
       length (classes_of_course d course) = 10%nat) /\
    (forall term, term ∈ AcademicSessions d ->
       length (classes_of_term d term) = 125%nat).
Proof.
  split.
  - apply numeral_source_collision_free.
  - apply (round_robin_is_balanced numeral_source counting_clock).
    apply numeral_source_collision_free.
Defined.

Section Denormalised.

Variable uuid_source : nat -> string.
Variable clock : nat -> Time.
Hypothesis drawn_distinct : collision_free uuid_source 1817.

(** Provided the identifiers drawn are pairwise distinct, the title and
    the code of a generated class are those of the course its reference
    resolves to: asking [/courses/{id}] for the sourcedId of the course
    reference of the class at position [k] returns a course with the
    title of the class, whose code followed by "-S" and the number
    [k + 1] is the class code. *)
Theorem class_fields_follow_course :
  exists d, NewDataStore uuid_source clock = Some d /\
    forall k c r,
      Classes d !! k = Some c ->
      URLParam r "id" = GUIDRef_SourcedId (Class_Course c) ->
      exists course,
        getCourse {| Store := d |} r = OK (map_Course "course" course) /\
        Class_Title c = Course_Title course /\
        Class_ClassCode c
        = Course_CourseCode course +:+ "-S" +:+ fmt_d (1 + Z.of_nat k).
Proof.
  exists (generated uuid_source clock).
  split; [apply NewDataStore_generated|].
  intros k c r Hc Hid. rewrite generated_Classes in Hc.
  rewrite list_lookup_fmap in Hc.
  apply fmap_Some in Hc as (k' & Hk' & ->).
  apply lookup_seq in Hk' as [-> _]. cbn [Nat.add].
  exists (course_at uuid_source clock (S k mod 50)).
  split; [|split; reflexivity].
  destruct (generated_unique_ids uuid_source clock drawn_distinct)
    as (_ & _ & Hcourses & _).
  apply (range_return_unique (Courses (generated uuid_source clock))
           (fun _ => True)
           (fun y => String.eqb (sourcedId y) (URLParam r "id"))
           (URLParam r "id") (fun y => OK (map_Course "course" y))
           (NotFound "Course not found")
           (course_at uuid_source clock (S k mod 50)));
    auto using eqb_id_test.
  rewrite generated_Courses. apply elem_of_fmap_seq.
  exists (S k mod 50)%nat. split; [|reflexivity].
  apply Nat.mod_upper_bound. lia.
Qed.

End Denormalised.

(** The class theorem at the numeral source. *)
Lemma class_fields_follow_course_witness :
  collision_free numeral_source 1817 /\
  exists d, NewDataStore numeral_source counting_clock = Some d /\
    forall k c r,
      Classes d !! k = Some c ->
      URLParam r "id" = GUIDRef_SourcedId (Class_Course c) ->
      exists course,
        getCourse {| Store := d |} r = OK (map_Course "course" course) /\
        Class_Title c = Course_Title course /\
        Class_ClassCode c
        = Course_CourseCode course +:+ "-S" +:+ fmt_d (1 + Z.of_nat k).
Proof.
  split.
  - apply numeral_source_collision_free.
  - apply (class_fields_follow_course numeral_source counting_clock).
    apply numeral_source_collision_free.
Defined.

(** * The generation order *)

(** Indexing round-robin panics exactly on an empty collection (the
    remainder by its length is a division by zero), for a counter that
    is not negative. *)
Lemma pick_panics_iff {A} (coll : list A) (i : Z) (s : GenState) :
  0 <= i -> pick coll i s = None <-> coll = [].
Proof.
  intros Hi. unfold pick, bind, go_rem.
  destruct coll as [|x coll].
  - split; [done|]. intros _. reflexivity.
  - split; [|discriminate]. intros Hpanic. exfalso.
    set (n := Z.of_nat (length (x :: coll))) in *.
    assert (0 < n) as Hn by (unfold n; cbn [length]; lia).
    destruct (Z.eqb_spec n 0) as [|_]; [lia|].
    cbn [lift_option ret] in Hpanic. unfold index in Hpanic.
    pose proof (Z.rem_bound_pos i n Hi Hn) as Hrem.
    destruct (Z.ltb_spec (Z.rem i n) 0) as [|_]; [lia|].
    destruct (lookup_lt_is_Some_2 (x :: coll) (Z.to_nat (Z.rem i n)))
      as [y Hy]; [unfold n in *; lia|].
    rewrite Hy in Hpanic. discriminate.
Qed.

(** The order of the loops matters: an iteration of the student or of
    the teacher loop panics exactly when no org has been generated yet,
    and an iteration of the class loop exactly when the courses, the
    orgs or the academic sessions are still empty. *)
Theorem generation_needs_earlier_collections
    (uuid_source : nat -> string) (clock : nat -> Time) (i : Z)
    (s : GenState) :
  0 <= i ->
  (gen_student uuid_source clock i s = None <-> Orgs (ds s) = []) /\
  (gen_teacher uuid_source clock i s = None <-> Orgs (ds s) = []) /\
  (gen_class uuid_source clock i s = None <->
     Courses (ds s) = [] \/ Orgs (ds s) = [] \/ AcademicSessions (ds s) = []).
Proof.
  intros Hi.
  set (s1 := {| ds := ds s; drawn := S (drawn s); ticks := ticks s |}).
  pose proof (pick_panics_iff (Orgs (ds s)) i s1 Hi) as Horgs.
  pose proof (pick_panics_iff (Courses (ds s)) i s1 Hi) as Hcourses.
  pose proof (pick_panics_iff (AcademicSessions (ds s)) i s1 Hi) as Hterms.
  split; [|split].
  - unfold gen_student, bind, uuid_New_String, get_ds, time_Now, modify_ds.
    fold s1. change (ds s1) with (ds s).
    destruct (pick (Orgs (ds s)) i s1) as [[o s2]|]; [|tauto].
    split; [discriminate|]. intros Hnil. apply Horgs in Hnil. discriminate.
  - unfold gen_teacher, bind, uuid_New_String, get_ds, time_Now, modify_ds.
    fold s1. change (ds s1) with (ds s).
    destruct (pick (Orgs (ds s)) i s1) as [[o s2]|]; [|tauto].
    split; [discriminate|]. intros Hnil. apply Horgs in Hnil. discriminate.
  - unfold gen_class. unfold bind at 1 2 3.
    unfold uuid_New_String, get_ds, time_Now, modify_ds.
    fold s1. change (ds s1) with (ds s).
    destruct (pick (Courses (ds s)) i s1) as [[c s2]|] eqn:Hc; [|tauto].
    assert (s2 = s1) as ->.
    { unfold pick, bind in Hc.
      destruct (lift_option _ s1) as [[j s3]|] eqn:Hj; [|discriminate].
      destruct (go_rem _ _); [|discriminate]. injection Hj as _ <-.
      destruct (index _ _); [|discriminate]. now injection Hc as _ <-. }
    unfold bind at 1.
    destruct (pick (Orgs (ds s)) i s1) as [[o s2]|] eqn:Ho; [|tauto].
    assert (s2 = s1) as ->.
    { unfold pick, bind in Ho.
      destruct (lift_option _ s1) as [[j s3]|] eqn:Hj; [|discriminate].
      destruct (go_rem _ _); [|discriminate]. injection Hj as _ <-.
      destruct (index _ _); [|discriminate]. now injection Ho as _ <-. }
    unfold bind at 1.
    destruct (pick (AcademicSessions (ds s)) i s1) as [[t s2]|]; [|tauto].
    split; [discriminate|].
    intros [Hnil|[Hnil|Hnil]];
      [apply Hcourses in Hnil|apply Horgs in Hnil|apply Hterms in Hnil];
      discriminate.
Qed.

(** Run from the empty store, the first iteration of the student loop
    panics. *)
Lemma generation_needs_earlier_collections_witness :
  0 <= 1 /\
  gen_student numeral_source counting_clock 1 initial_state = None.
Proof.
  split; [lia|].
  destruct (generation_needs_earlier_collections
              numeral_source counting_clock 1 initial_state ltac:(lia))
    as [[_ Hpanic] _].
  apply Hpanic. reflexivity.
Defined.

(** * The authentication boundary *)

Lemma prefix_empty (s : string) : String.prefix "" s = true.
Proof. now destruct s. Qed.

Lemma swagger_prefix (rest : string) :
  strings_HasPrefix ("/swagger/" +:+ rest) "/swagger/" = true.
Proof. apply prefix_empty. Qed.

Lemma api_base_not_swagger (rest : string) :
  strings_HasPrefix (api_base +:+ rest) "/swagger/" = false.
Proof. reflexivity. Qed.

(** The middleware lets every request under [/swagger/] through,
    header or no header. A request under the API base path reaches the
    rest of the chain exactly when its first [Authorization] value is
    not empty, whatever that value is; otherwise the middleware answers
    401 with its plain-text message and the chain is not run. *)
Theorem mockAuth_boundary {R} (next : HTTPRequest -> R) (r : HTTPRequest) :
  (forall rest, URL_Path r = "/swagger/" +:+ rest ->
     mockAuth next r = passed (next r)) /\
  (forall rest, URL_Path r = api_base +:+ rest ->
     (Header_Get (Header r) "Authorization" = "" <->
      mockAuth next r
      = text_error 401
          ("Unauthorized: Missing Authorization header"
           +:+ String (Ascii.ascii_of_nat 10) "")) /\
     (Header_Get (Header r) "Authorization" <> "" <->
      mockAuth next r = passed (next r))).
Proof.
  unfold mockAuth. split; intros rest ->.
  - now rewrite swagger_prefix.
  - rewrite api_base_not_swagger. cbv zeta.
    destruct (String.eqb_spec (Header_Get (Header r) "Authorization") "")
      as [Hempty|Hvalue].
    + split; split; done.
    + split; split; done.
Qed.

(** Two requests for [/orgs] at the demo server: without any header the
    handler is not reached, with a first [Authorization] value it
    is. *)
Lemma mockAuth_boundary_witness :
  mockAuth (fun _ => getOrgs demo {| URLParams := [] |})
    {| URL_Path := api_base +:+ "/orgs"; Header := ∅ |}
  = text_error 401
      ("Unauthorized: Missing Authorization header"
       +:+ String (Ascii.ascii_of_nat 10) "")
  /\ mockAuth (fun _ => getOrgs demo {| URLParams := [] |})
       {| URL_Path := api_base +:+ "/orgs";
          Header := {[ "Authorization" := ["anything"; ""] ]} |}
     = passed (getOrgs demo {| URLParams := [] |}).
Proof.
  split.
  - apply (mockAuth_boundary (fun _ => getOrgs demo {| URLParams := [] |})
             {| URL_Path := api_base +:+ "/orgs"; Header := ∅ |}
      ) with (rest := "/orgs"); reflexivity.
  - apply (mockAuth_boundary (fun _ => getOrgs demo {| URLParams := [] |})
             {| URL_Path := api_base +:+ "/orgs";
                Header := {[ "Authorization" := ["anything"; ""] ]} |}
      ) with (rest := "/orgs"); [reflexivity|].
    vm_compute. discriminate.
Defined.
